(** * Algorithmic trading system: a shallow embedding of [trading_system.py]

    The Python classes [DataFetcher], [TradingStrategy], [MLModel],
    [GoogleSheetsLogger], [TelegramNotifier] and [TradingSystem] are embedded
    as Rocq modules of the same names.

    - A float64 cell is a [cell := option Q]: [None] is NaN (pandas' missing
      value), [Some q] a number.  Every comparison with NaN is false, as in
      IEEE 754 and numpy.
    - A pandas DataFrame is the list of its rows, oldest first; a column is
      a list; a boolean mask is a [list bool].
    - A Python [dict] keyed by symbol is a [PyDict.dict]: the list of its
      items in insertion order.
    - Logging, sleeping and the three remote services (Yahoo Finance, Google
      Sheets, Telegram) are effects: the program runs in the monad [M], which
      threads the trace of events performed so far and may raise a Python
      exception. *)

From Stdlib Require Import ZArith QArith Qround Lia.
From stdpp Require Import base option list sets strings pretty.

Local Open Scope nat_scope.

(** ** Float cells *)

Module Float.

(** A float64 cell of a pandas column: [None] is NaN. *)
Definition cell : Type := option Q.

Definition NaN : cell := None.

Definition Qltb (x y : Q) : bool := negb (Qle_bool y x).

(** [a < b] on cells: false as soon as one side is NaN. *)
Definition ltb (a b : cell) : bool :=
  match a, b with
  | Some x, Some y => Qltb x y
  | _, _ => false
  end.

(** [a > b] on cells. *)
Definition gtb (a b : cell) : bool := ltb b a.

(** [np.isnan] / [pd.isna] on a cell. *)
Definition isnan (a : cell) : bool :=
  match a with Some _ => false | None => true end.

(** [fillna(v)] on one cell. *)
Definition fillna (v : Q) (a : cell) : Q := default v a.

Definition of_Z (z : Z) : cell := Some (inject_Z z).

End Float.

(** ** TA-Lib

    [talib] is a third-party package, not part of this repository.  The
    functions the program calls ([talib.SMA], [talib.RSI], [talib.MACD]) are
    written here after TA-Lib's C sources ([ta_SMA.c], [ta_EMA.c],
    [ta_RSI.c], [ta_MACD.c]) and its Python wrapper, over exact rationals
    instead of doubles (kept in lowest terms with [Qred], which does not
    change the number).  The wrapper returns an array as long as the input
    whose first [lookback] entries are NaN. *)

Module talib.

Import Float.

Definition Qsum (l : list Q) : Q := foldr Qplus 0%Q l.

Definition Qnat (n : nat) : Q := inject_Z (Z.of_nat n).

(** The Python wrapper: [lookback] NaNs, then the values the C function
    wrote; an input no longer than the lookback gives NaNs only. *)
Definition pad_output (lookback n : nat) (out : list Q) : list cell :=
  replicate (lookback `min` n) NaN ++ (Some <$> out).

(** *** SMA *)

Definition SMA_lookback (timeperiod : nat) : nat := timeperiod - 1.

(** [TA_SMA]: a running total over the trailing [timeperiod] inputs.
    [window] holds the inputs still inside the total, oldest first. *)
Fixpoint SMA_run (timeperiod : nat) (periodTotal : Q) (window : list Q)
    (inReal : list Q) : list Q :=
  match inReal with
  | [] => []
  | x :: rest =>
      let periodTotal := (periodTotal + x)%Q in
      let out := Qred (periodTotal / Qnat timeperiod) in
      match window with
      | [] => out :: SMA_run timeperiod (periodTotal - x)%Q [] rest
      | trailing :: window' =>
          out :: SMA_run timeperiod (periodTotal - trailing)%Q (window' ++ [x]) rest
      end
  end.

Definition SMA_core (timeperiod : nat) (inReal : list Q) : list Q :=
  let lookback := SMA_lookback timeperiod in
  if (length inReal <=? lookback)%nat then []
  else
    let head := take lookback inReal in
    SMA_run timeperiod (Qsum head) head (drop lookback inReal).

Definition SMA (real : list Q) (timeperiod : nat) : list cell :=
  pad_output (SMA_lookback timeperiod) (length real) (SMA_core timeperiod real).

(** *** EMA (internal, as used by MACD) *)

Definition EMA_lookback (timeperiod : nat) : nat := timeperiod - 1.

Definition PER_TO_K (timeperiod : nat) : Q := (2 / Qnat (timeperiod + 1))%Q.

Fixpoint EMA_run (k prevMA : Q) (inReal : list Q) : list Q :=
  match inReal with
  | [] => []
  | x :: rest =>
      let prevMA := Qred ((x - prevMA) * k + prevMA) in
      prevMA :: EMA_run k prevMA rest
  end.

(** [TA_INT_EMA] in the default compatibility mode: the seed is the simple
    average of the [timeperiod] inputs that end at [startIdx]. *)
Definition INT_EMA (startIdx : nat) (inReal : list Q) (timeperiod : nat)
    (k : Q) : list Q :=
  let startIdx := startIdx `max` EMA_lookback timeperiod in
  if (length inReal <=? startIdx)%nat then []
  else
    let today := (startIdx - EMA_lookback timeperiod)%nat in
    let prevMA := Qred (Qsum (take timeperiod (drop today inReal)) / Qnat timeperiod) in
    prevMA :: EMA_run k prevMA (drop (S startIdx) inReal).

(** *** MACD *)

Definition MACD_lookback (fastperiod slowperiod signalperiod : nat) : nat :=
  let slowperiod := fastperiod `max` slowperiod in
  EMA_lookback signalperiod + EMA_lookback slowperiod.

(** [TA_INT_MACD]: both averages start at the slow average's first index,
    the signal line is an EMA of their difference, and the first
    [signalperiod - 1] differences are not output. *)
Definition MACD_core (inReal : list Q) (fastperiod slowperiod signalperiod : nat)
    : list Q * list Q * list Q :=
  let '(fastperiod, slowperiod) :=
    if (slowperiod <? fastperiod)%nat then (slowperiod, fastperiod)
    else (fastperiod, slowperiod) in
  let lookbackSignal := EMA_lookback signalperiod in
  let lookbackTotal := (lookbackSignal + EMA_lookback slowperiod)%nat in
  let tempInteger := (lookbackTotal - lookbackSignal)%nat in
  let slowEMA := INT_EMA tempInteger inReal slowperiod (PER_TO_K slowperiod) in
  let fastEMA := INT_EMA tempInteger inReal fastperiod (PER_TO_K fastperiod) in
  let diff := zip_with (λ f s, Qred (f - s)) fastEMA slowEMA in
  let outMACD := drop lookbackSignal diff in
  let outMACDSignal := INT_EMA 0 diff signalperiod (PER_TO_K signalperiod) in
  let outMACDHist := zip_with (λ m s, Qred (m - s)) outMACD outMACDSignal in
  (outMACD, outMACDSignal, outMACDHist).

Definition MACD (real : list Q) (fastperiod slowperiod signalperiod : nat)
    : list cell * list cell * list cell :=
  let lookback := MACD_lookback fastperiod slowperiod signalperiod in
  let '(m, s, h) := MACD_core real fastperiod slowperiod signalperiod in
  let n := length real in
  (pad_output lookback n m, pad_output lookback n s, pad_output lookback n h).

(** *** RSI *)

Definition RSI_lookback (timeperiod : nat) : nat := timeperiod.

(** [TA_IS_ZERO]. *)
Definition IS_ZERO (v : Q) : bool :=
  Qltb (-(1 # 100000000)) v && Qltb v (1 # 100000000).

Definition RSI_value (prevGain prevLoss : Q) : Q :=
  let tempValue1 := (prevGain + prevLoss)%Q in
  if IS_ZERO tempValue1 then 0%Q else Qred (100 * (prevGain / tempValue1)).

(** The first [timeperiod] changes are summed into a gain and a loss. *)
Fixpoint RSI_seed (prevValue prevGain prevLoss : Q) (changes : list Q)
    : Q * Q * Q :=
  match changes with
  | [] => (prevValue, prevGain, prevLoss)
  | tempValue1 :: rest =>
      let tempValue2 := (tempValue1 - prevValue)%Q in
      if Qltb tempValue2 0 then RSI_seed tempValue1 prevGain (prevLoss - tempValue2)%Q rest
      else RSI_seed tempValue1 (prevGain + tempValue2)%Q prevLoss rest
  end.

(** Wilder's smoothing over the remaining inputs. *)
Fixpoint RSI_run (timeperiod : nat) (prevValue prevGain prevLoss : Q)
    (inReal : list Q) : list Q :=
  match inReal with
  | [] => []
  | tempValue1 :: rest =>
      let tempValue2 := (tempValue1 - prevValue)%Q in
      let prevLoss := (prevLoss * Qnat (timeperiod - 1))%Q in
      let prevGain := (prevGain * Qnat (timeperiod - 1))%Q in
      let prevLoss := if Qltb tempValue2 0 then (prevLoss - tempValue2)%Q else prevLoss in
      let prevGain := if Qltb tempValue2 0 then prevGain else (prevGain + tempValue2)%Q in
      let prevLoss := Qred (prevLoss / Qnat timeperiod) in
      let prevGain := Qred (prevGain / Qnat timeperiod) in
      RSI_value prevGain prevLoss :: RSI_run timeperiod tempValue1 prevGain prevLoss rest
  end.

Definition RSI_core (timeperiod : nat) (inReal : list Q) : list Q :=
  match inReal with
  | [] => []
  | first :: rest =>
      if (length rest <? timeperiod)%nat then []
      else if (timeperiod =? 1)%nat then rest
      else
        let '(prevValue, prevGain, prevLoss) :=
          RSI_seed first 0%Q 0%Q (take timeperiod rest) in
        let prevLoss := (prevLoss / Qnat timeperiod)%Q in
        let prevGain := (prevGain / Qnat timeperiod)%Q in
        RSI_value prevGain prevLoss
          :: RSI_run timeperiod prevValue prevGain prevLoss (drop timeperiod rest)
  end.

Definition RSI (real : list Q) (timeperiod : nat) : list cell :=
  pad_output (RSI_lookback timeperiod) (length real) (RSI_core timeperiod real).

End talib.

(** ** Python dictionaries

    A [dict] keeps its keys in insertion order; assigning to a key that is
    present replaces the value in place. *)

Module PyDict.

Definition dict (V : Type) : Type := list (string * V).

Fixpoint get {V} (k : string) (d : dict V) : option V :=
  match d with
  | [] => None
  | (k', v) :: d' => if decide (k' = k) then Some v else get k d'
  end.

(** [d[k] = v]. *)
Fixpoint set {V} (k : string) (v : V) (d : dict V) : dict V :=
  match d with
  | [] => [(k, v)]
  | (k', v') :: d' =>
      if decide (k' = k) then (k, v) :: d' else (k', v') :: set k v d'
  end.

(** [k in d]. *)
Definition mem {V} (k : string) (d : dict V) : bool := bool_decide (is_Some (get k d)).

Definition keys {V} (d : dict V) : list string := d.*1.

Definition values {V} (d : dict V) : list V := d.*2.

(** [not d]. *)
Definition is_empty {V} (d : dict V) : bool :=
  match d with [] => true | _ => false end.

End PyDict.

(** ** Price series, as [yfinance] returns them *)

Module yfinance.

(** One row of [Ticker.history]: the index (a timestamp) and the OHLCV
    columns, which hold numbers (a PriceSeries has no missing price).  The
    [Dividends] and [Stock Splits] columns are never read by the program
    and hold no missing value; they are left out. *)
Record Bar : Type := mkBar {
  Date : Z;
  Open : Q;
  High : Q;
  Low : Q;
  Close : Q;
  Volume : Z
}.

(** [Ticker.info]: a dictionary of strings. *)
Definition info : Type := PyDict.dict string.

End yfinance.

(** ** Effects: logging, sleeping, remote calls, exceptions *)

Module Py.

Import yfinance.

Inductive level : Type := INFO | WARNING | ERROR.

(** An instance of (a subclass of) [Exception]; [str e] is its message. *)
Inductive exn : Type := Exception (msg : string).

Definition str (e : exn) : string := match e with Exception msg => msg end.

(** A value written to a spreadsheet cell. *)
Inductive value : Type :=
| VStr (s : string)
| VInt (z : Z)
| VFloat (q : Q).

(** What the program did, in order, with the answer it got. *)
Inductive event : Type :=
| EvLog (lvl : level) (msg : string)
| EvSleep (secs : nat)
| EvInfo (symbol : string) (r : exn + info)
| EvHistory (symbol period : string) (r : exn + list Bar)
| EvPathExists (path : string) (r : bool)
| EvCredentials (path : string) (r : exn + ())
| EvAuthorize (r : exn + ())
| EvOpen (name : string) (r : exn + ())
| EvWorksheet (name : string) (r : exn + ())
| EvGetAllValues (worksheet : string) (r : exn + list (list string))
| EvAppendRows (worksheet : string) (rows : list (list value)) (r : exn + ())
| EvAppendRow (worksheet : string) (row : list value) (r : exn + ())
| EvPost (url chat_id text : string) (r : exn + Z * string).

Definition trace : Type := list event.

(** The outside world: each remote call is answered from what has happened
    so far, so the same request may be answered differently the second
    time.  Any call may raise. *)
Record world : Type := mkWorld {
  yf_info : trace → string → exn + info;
  yf_history : trace → string → string → exn + list Bar;
  os_path_exists : trace → string → bool;
  gs_credentials : trace → string → exn + ();
  gs_authorize : trace → exn + ();
  gs_open : trace → string → exn + ();
  gs_worksheet : trace → string → exn + ();
  gs_get_all_values : trace → string → exn + list (list string);
  gs_append_rows : trace → string → list (list value) → exn + ();
  gs_append_row : trace → string → list value → exn + ();
  requests_post : trace → string → string → string → exn + Z * string;
  (** [datetime.now().strftime('%Y-%m-%d %H:%M:%S')] *)
  now : trace → string;
  (** [format(x, spec)] for a float, e.g. [f"{x:.2f}"] *)
  format_float : string → Q → string;
  (** [float(s)]; [None] when it raises [ValueError] *)
  float_of_string : string → option Q;
  (** [traceback.format_exc()] while the exception is handled *)
  format_exc : exn → string
}.

(** A computation: it extends the trace and returns or raises. *)
Definition M (A : Type) : Type := trace → (exn + A) * trace.

Definition ret {A} (a : A) : M A := λ t, (inr a, t).

Definition bind {A B} (m : M A) (k : A → M B) : M B := λ t,
  match m t with
  | (inl e, t') => (inl e, t')
  | (inr a, t') => k a t'
  end.

Definition raise {A} (e : exn) : M A := λ t, (inl e, t).

(** [try: body  except Exception as e: handler e]. *)
Definition try_except {A} (body : M A) (handler : exn → M A) : M A := λ t,
  match body t with
  | (inl e, t') => handler e t'
  | (inr a, t') => (inr a, t')
  end.

(** A call whose answer the world decides. *)
Definition perform {R} (ask : trace → exn + R) (ev : exn + R → event) : M R := λ t,
  let r := ask t in (r, t ++ [ev r]).

(** A call that cannot raise. *)
Definition perform_total {R} (ask : trace → R) (ev : R → event) : M R := λ t,
  let r := ask t in (inr r, t ++ [ev r]).

(** Reading the world without leaving a mark in the trace (the clock). *)
Definition observe {R} (ask : trace → R) : M R := λ t, (inr (ask t), t).

Definition emit (e : event) : M () := λ t, (inr (), t ++ [e]).

Definition log (lvl : level) (msg : string) : M () := emit (EvLog lvl msg).

Definition sleep (secs : nat) : M () := emit (EvSleep secs).

(** [for x in xs: acc = body x acc]. *)
Fixpoint for_each {A S} (xs : list A) (body : A → S → M S) (acc : S) : M S :=
  match xs with
  | [] => ret acc
  | x :: xs' => bind (body x acc) (for_each xs' body)
  end.

(** [needle in haystack] on strings. *)
Definition contains (needle haystack : string) : bool :=
  bool_decide (is_Some (String.index 0 needle haystack)).

End Py.

Global Instance M_ret : MRet Py.M := @Py.ret.
Global Instance M_bind : MBind Py.M := λ A B k m, Py.bind m k.

(** ** [class DataFetcher] *)

Module DataFetcher.

Import yfinance Py.

Section with_world.
Variable w : world.

(** ["429" in str(e) or "Too Many Requests" in str(e)]. *)
Definition rate_limited (e : exn) : bool :=
  contains "429" (str e) || contains "Too Many Requests" (str e).

(** The inner [try] around [ticker.info]: [false] is the [continue] of the
    period loop, [true] goes on to [ticker.history]. *)
Definition check_info (symbol : string) : M bool :=
  try_except
    (info ← perform (λ t, yf_info w t symbol) (EvInfo symbol);
     if PyDict.is_empty info then
       log WARNING ("No info found for " +:+ symbol);;
       ret false
     else
       log INFO ("Successfully retrieved info for " +:+ symbol);;
       ret true)
    (λ info_e,
       log WARNING ("Could not retrieve info for " +:+ symbol +:+ ": " +:+ str info_e);;
       if rate_limited info_e then
         log INFO "Rate limited. Waiting 5 seconds before retry...";;
         sleep 5;;
         ret false
       else ret true).

(** The body of [for period in periods_to_try]: [Some hist] is the [break]
    after [data[symbol] = hist]; [None] goes on to the next period. *)
Definition attempt (symbol period : string) : M (option (list Bar)) :=
  try_except
    (log INFO ("Attempting to fetch data for " +:+ symbol +:+ " with period " +:+ period);;
     go ← check_info symbol;
     if negb go then ret None
     else
       hist ← perform (λ t, yf_history w t symbol period) (EvHistory symbol period);
       log INFO ("Retrieved " +:+ pretty (length hist) +:+ " rows of data for "
                   +:+ symbol +:+ " with period " +:+ period);;
       if negb (bool_decide (hist = [])) then ret (Some hist)
       else
         log WARNING ("No historical data found for " +:+ symbol
                        +:+ " with period " +:+ period);;
         ret None)
    (λ e,
       log ERROR ("Error fetching data for " +:+ symbol +:+ " with period "
                    +:+ period +:+ ": " +:+ str e);;
       if rate_limited e then
         log INFO "Rate limited. Waiting 5 seconds before retry...";;
         sleep 5;;
         ret None
       else
         log ERROR ("Full traceback for " +:+ symbol +:+ " with period " +:+ period
                      +:+ ": " +:+ format_exc w e);;
         ret None).

(** [for period in periods_to_try: ...], up to the [break]. *)
Fixpoint for_periods (symbol : string) (periods : list string) : M (option (list Bar)) :=
  match periods with
  | [] => ret None
  | period :: rest =>
      r ← attempt symbol period;
      match r with
      | Some hist => ret (Some hist)
      | None => for_periods symbol rest
      end
  end.

Definition periods_to_try (period : string) : list string :=
  [period; "3mo"; "1mo"; "1y"]%string.

(** The body of [for i, symbol in enumerate(self.symbols)]. *)
Definition fetch_symbol (period : string) (i_symbol : nat * string)
    (data : PyDict.dict (list Bar)) : M (PyDict.dict (list Bar)) :=
  let '(i, symbol) := i_symbol in
  (if (0 <? i)%nat then sleep 2 else ret ());;
  r ← for_periods symbol (periods_to_try period);
  match r with
  | Some hist => ret (PyDict.set symbol hist data)
  | None =>
      log ERROR ("Failed to fetch data for " +:+ symbol +:+ " with all attempted periods");;
      ret data
  end.

Definition fetch_data (symbols : list string) (period : string)
    : M (PyDict.dict (list Bar)) :=
  data ← for_each (imap pair symbols) (fetch_symbol period) [];
  (if PyDict.is_empty data then
     log ERROR "No data fetched for any symbols. This might be due to Yahoo Finance API issues."
   else ret ());;
  ret data.

End with_world.

End DataFetcher.

(** ** [class TradingStrategy] *)

Module TradingStrategy.

Import Float yfinance Py.

(** A price row with the columns [calculate_indicators] adds.  The columns
    ['20_MA'] and ['50_MA'] are [MA_20] and [MA_50]. *)
Record IndicatorRow : Type := mkIndicatorRow {
  bar : Bar;
  RSI : cell;
  MA_20 : cell;
  MA_50 : cell;
  MACD : cell;
  MACD_signal : cell
}.

(** An indicator row with the columns [generate_signals] adds.  [Position]
    is an object column: an integer, or [None] where it is missing. *)
Record SignalRow : Type := mkSignalRow {
  indicators : IndicatorRow;
  Signal : Z;
  Position : option Z
}.

(** [df[name] = column]: the value at row [i]; pandas aligns on the index
    and leaves NaN where the column has no entry. *)
Definition at_index (column : list cell) (i : nat) : cell :=
  default NaN (column !! i).

Definition calculate_indicators (df : list Bar) : list IndicatorRow :=
  let close := Close <$> df in
  let rsi := talib.RSI close 14 in
  let ma_20 := talib.SMA close 20 in
  let ma_50 := talib.SMA close 50 in
  let '(macd, macd_signal, _) := talib.MACD close 12 26 9 in
  imap (λ i b, {| bar := b;
                  RSI := at_index rsi i;
                  MA_20 := at_index ma_20 i;
                  MA_50 := at_index ma_50 i;
                  MACD := at_index macd i;
                  MACD_signal := at_index macd_signal i |}) df.

(** [column.loc[mask] = v]. *)
Definition loc_assign {A} (mask : list bool) (v : A) (column : list A) : list A :=
  zip_with (λ (m : bool) x, if m then v else x) mask column.

(** [column.replace(to_replace=z, value=None)]: the explicit [None] is the
    new value (pandas 1.4 and later). *)
Definition replace_with_None (to_replace : Z) (column : list Z) : list (option Z) :=
  (λ x, if decide (x = to_replace) then None else Some x) <$> column.

(** [column.ffill()], carrying the last value seen. *)
Fixpoint ffill_from {A} (carry : option A) (column : list (option A)) : list (option A) :=
  match column with
  | [] => []
  | x :: rest =>
      let carry := match x with Some v => Some v | None => carry end in
      carry :: ffill_from carry rest
  end.

Definition ffill {A} (column : list (option A)) : list (option A) :=
  ffill_from None column.

Definition buy_condition (df : list IndicatorRow) : list bool :=
  zip_with andb ((λ r, ltb (RSI r) (of_Z 30)) <$> df)
                ((λ r, gtb (MA_20 r) (MA_50 r)) <$> df).

Definition sell_condition (df : list IndicatorRow) : list bool :=
  zip_with orb ((λ r, gtb (RSI r) (of_Z 70)) <$> df)
               ((λ r, ltb (MA_20 r) (MA_50 r)) <$> df).

(** The ['Signal'] column: [df['Signal'] = 0], then
    [df.loc[buy_condition, 'Signal'] = 1], then
    [df.loc[sell_condition, 'Signal'] = -1]. *)
Definition signal_column (df : list IndicatorRow) : list Z :=
  let signal := replicate (length df) 0%Z in
  let signal := loc_assign (buy_condition df) 1%Z signal in
  loc_assign (sell_condition df) (-1)%Z signal.

(** The ['Position'] column:
    [df['Signal'].replace(to_replace=0, value=None).ffill()]; the first
    assignment [df['Position'] = 0] is overwritten. *)
Definition position_column (signal : list Z) : list (option Z) :=
  ffill (replace_with_None 0 signal).

(** The body of the loop of [generate_signals], for one symbol's frame. *)
Definition generate_signals_df (df : list Bar) : list SignalRow :=
  let df := calculate_indicators df in
  let signal := signal_column df in
  let position := position_column signal in
  zip_with (λ r sp, {| indicators := r; Signal := sp.1; Position := sp.2 |})
           df (zip signal position).

(** [generate_signals], on a strategy whose [self.signals] is still empty. *)
Definition generate_signals (data : PyDict.dict (list Bar))
    : M (PyDict.dict (list SignalRow)) :=
  for_each data
    (λ '(symbol, df) signals,
       let signals := PyDict.set symbol (generate_signals_df df) signals in
       log INFO ("Signals generated for " +:+ symbol);;
       mret signals)
    [].

End TradingStrategy.

(** ** scikit-learn

    The classifier and the random shuffle are third-party code.  The
    program only relies on: [fit] returns a model, [predict] labels each
    row on its own, and [RandomState(42).permutation(n)] is a permutation
    of [0 .. n-1]. *)

Module sklearn.

Record library : Type := mkLibrary {
  model : Type;
  (** [DecisionTreeClassifier(max_depth=5).fit(X, y)] *)
  fit : list (list Q) → list Z → model;
  (** [model.predict] on one row *)
  predict : model → list Q → Z;
  (** [check_random_state(42).permutation(n)] *)
  permutation : nat → list nat;
  permutation_ok : ∀ n, permutation n ≡ₚ seq 0 n
}.

End sklearn.

(** ** [class MLModel] *)

Module MLModel.

Import Float yfinance Py TradingStrategy.

(** A signal row with the ['Target'] column. *)
Record LabelledRow : Type := mkLabelledRow {
  signal_row : SignalRow;
  Target : Z
}.

(** [column.shift(-1)]: every value moves up one row, the last row gets NaN. *)
Definition shift_up (column : list Q) : list cell :=
  match column with
  | [] => []
  | _ :: rest => (Some <$> rest) ++ [NaN]
  end.

Definition close_of (r : SignalRow) : Q := Close (bar (indicators r)).

(** [df['Target'] = np.where(df['Close'].shift(-1) > df['Close'], 1, 0)]. *)
Definition add_target (df : list SignalRow) : list LabelledRow :=
  let close := close_of <$> df in
  let target := zip_with (λ next c, if gtb next (Some c) then 1%Z else 0%Z)
                         (shift_up close) close in
  zip_with mkLabelledRow df target.

(** A row [dropna] removes: one with a missing value in some column.  The
    price columns, [Signal] and [Target] never hold one. *)
Definition has_na (r : LabelledRow) : bool :=
  let s := signal_row r in
  let i := indicators s in
  isnan (RSI i) || isnan (MA_20 i) || isnan (MA_50 i) || isnan (MACD i)
  || isnan (MACD_signal i) || bool_decide (Position s = None).

Definition dropna (df : list LabelledRow) : list LabelledRow :=
  filter (λ r, has_na r = false) df.

(** [df[['RSI', 'MACD', 'Volume', '20_MA', '50_MA']].fillna(0)], one row. *)
Definition features (r : LabelledRow) : list Q :=
  let i := indicators (signal_row r) in
  [fillna 0 (RSI i); fillna 0 (MACD i); inject_Z (Volume (bar i));
   fillna 0 (MA_20 i); fillna 0 (MA_50 i)].

Definition prepare_data (df : list SignalRow) : list (list Q) * list Z :=
  let df := dropna (add_target df) in
  (features <$> df, Target <$> df).

(** [ceil(test_size * n_samples)] for [test_size = 0.2]. *)
Definition n_test_of (n_samples : nat) : nat :=
  Z.to_nat (Qceiling ((2 # 10) * inject_Z (Z.of_nat n_samples))).

Section with_libraries.
Variable w : world.
Variable sk : sklearn.library.

(** [train_test_split(X, y, test_size=0.2, random_state=42)]:
    [n_test = ceil(0.2 * n)], the rest is the training set, and an empty
    training set raises [ValueError]. *)
Definition train_test_split (X : list (list Q)) (y : list Z)
    : M (list (list Q) * list (list Q) * list Z * list Z) :=
  let n_samples := length X in
  let n_test := n_test_of n_samples in
  let n_train := n_samples - n_test in
  if (n_train =? 0)%nat then
    raise (Exception ("With n_samples=" +:+ pretty n_samples
      +:+ ", test_size=0.2 and train_size=None, the resulting train set will be empty."))
  else
    let permutation := sklearn.permutation sk n_samples in
    let ind_test := take n_test permutation in
    let ind_train := take n_train (drop n_test permutation) in
    mret (omap (λ i, X !! i) ind_train, omap (λ i, X !! i) ind_test,
          omap (λ i, y !! i) ind_train, omap (λ i, y !! i) ind_test).

(** [accuracy_score(y_true, y_pred)]: the share of equal labels. *)
Definition accuracy_score (y_true y_pred : list Z) : Q :=
  let hits := length (filter (λ p, p.1 = p.2) (zip y_true y_pred)) in
  (inject_Z (Z.of_nat hits) / inject_Z (Z.of_nat (length y_true)))%Q.

(** The body of the loop of [train_models]. *)
Definition train_symbol (entry : string * list SignalRow)
    (acc : PyDict.dict (sklearn.model sk) * PyDict.dict Q)
    : M (PyDict.dict (sklearn.model sk) * PyDict.dict Q) :=
  let '(symbol, df) := entry in
  let '(models, accuracies) := acc in
  let '(X, y) := prepare_data df in
  if bool_decide (X = []) || bool_decide (y = []) then
    log WARNING ("Not enough data to train model for " +:+ symbol);;
    mret (models, accuracies)
  else
    '(X_train, X_test, y_train, y_test) ← train_test_split X y;
    let model := sklearn.fit sk X_train y_train in
    let y_pred := sklearn.predict sk model <$> X_test in
    let accuracy := accuracy_score y_test y_pred in
    log INFO ("ML model trained for " +:+ symbol +:+ " with accuracy: "
                +:+ format_float w ".2f" accuracy);;
    mret (PyDict.set symbol model models, PyDict.set symbol accuracy accuracies).

(** [train_models], on a model whose [self.models] and [self.accuracies]
    are still empty. *)
Definition train_models (signals : PyDict.dict (list SignalRow))
    : M (PyDict.dict (sklearn.model sk) * PyDict.dict Q) :=
  for_each signals train_symbol ([], []).

End with_libraries.

End MLModel.

(** ** [class GoogleSheetsLogger] *)

Module GoogleSheetsLogger.

Import Float yfinance Py TradingStrategy.

Section with_world.
Variable w : world.

(** [self.sheet]: [None], or the opened spreadsheet. *)
Definition sheet : Type := option ().

(** [__init__]; the value returned is [self.sheet]. *)
Definition init (credentials_file : string) : M sheet :=
  try_except
    (missing ←
       (if bool_decide (credentials_file = "") then mret true
        else
          found ← perform_total (λ t, os_path_exists w t credentials_file)
                                (EvPathExists credentials_file);
          mret (negb found));
     if (missing : bool) then
       log WARNING "Google credentials file not found. Skipping Sheets logging.";;
       mret None
     else
       perform (λ t, gs_credentials w t credentials_file) (EvCredentials credentials_file);;
       perform (gs_authorize w) EvAuthorize;;
       perform (λ t, gs_open w t "AlgoTradingSystem") (EvOpen "AlgoTradingSystem");;
       mret (Some ()))
    (λ e,
       log ERROR ("Failed to initialize Google Sheets client: " +:+ str e);;
       mret None).

(** [df.iloc[-1]]; an empty frame raises [IndexError]. *)
Definition iloc_last (df : list SignalRow) : M SignalRow :=
  match last df with
  | Some r => mret r
  | None => raise (Exception "single positional indexer is out-of-bounds")
  end.

(** [float(x) if not np.isnan(x) else 0]. *)
Definition float_or_0 (x : cell) : value :=
  if isnan x then VInt 0 else VFloat (fillna 0 x).

Definition trade_row (symbol : string) (last_signal : SignalRow) : M (list value) :=
  stamp ← observe (now w);
  let i := indicators last_signal in
  mret [VStr stamp; VStr symbol; VInt (Signal last_signal); VFloat (Close (bar i));
        float_or_0 (RSI i); float_or_0 (MA_20 i); float_or_0 (MA_50 i)].

Definition log_trades (self_sheet : sheet) (signals : PyDict.dict (list SignalRow))
    : M () :=
  if bool_decide (self_sheet = None) then
    log INFO "Sheets client not initialized - skipping trade logging."
  else
    try_except
      (perform (λ t, gs_worksheet w t "Trade_Log") (EvWorksheet "Trade_Log");;
       trade_data ← for_each signals
         (λ '(symbol, df) trade_data,
            last_signal ← iloc_last df;
            row ← trade_row symbol last_signal;
            mret (trade_data ++ [row]))
         [];
       perform (λ t, gs_append_rows w t "Trade_Log" trade_data)
               (EvAppendRows "Trade_Log" trade_data);;
       log INFO "Trade data logged to Google Sheets")
      (λ e, log ERROR ("Error logging to Google Sheets: " +:+ str e)).

(** The inner [try] of [log_portfolio]: the last stored portfolio value,
    or 0 when anything goes wrong. *)
Definition read_previous_value : M Q :=
  try_except
    (all_values ← perform (λ t, gs_get_all_values w t "Portfolio_Summary")
                          (EvGetAllValues "Portfolio_Summary");
     if (1 <? length all_values)%nat then
       match last all_values ≫= (.!! 6%nat) with
       | None => raise (Exception "list index out of range")
       | Some s =>
           match float_of_string w s with
           | None => raise (Exception ("could not convert string to float: " +:+ s))
           | Some q => mret q
           end
       end
     else mret 0%Q)
    (λ _, mret 0%Q).

(** [sum(1 for df in signals.values() if df.iloc[-1]['Signal'] == z)]. *)
Definition count_last_signal (z : Z) (signals : PyDict.dict (list SignalRow)) : M Z :=
  for_each (PyDict.values signals)
    (λ df n, r ← iloc_last df;
             mret (if decide (Signal r = z) then (n + 1)%Z else n))
    0%Z.

Definition summary_headers : list value :=
  VStr <$> ["Timestamp"; "Total Symbols"; "Buy Signals"; "Sell Signals"; "Hold Signals";
            "Avg Accuracy"; "Portfolio Value"; "Daily Change"; "Daily Change %"]%string.

Definition log_portfolio (self_sheet : sheet) (signals : PyDict.dict (list SignalRow))
    (accuracies : PyDict.dict Q) : M () :=
  if bool_decide (self_sheet = None) then
    log INFO "Sheets client not initialized - skipping portfolio logging."
  else
    try_except
      (perform (λ t, gs_worksheet w t "Portfolio_Summary") (EvWorksheet "Portfolio_Summary");;
       previous_value ← read_previous_value;
       let total_symbols := Z.of_nat (length signals) in
       buy_signals ← count_last_signal 1 signals;
       sell_signals ← count_last_signal (-1) signals;
       let hold_signals := (total_symbols - buy_signals - sell_signals)%Z in
       let avg_accuracy :=
         if PyDict.is_empty accuracies then 0%Q
         else (talib.Qsum (PyDict.values accuracies)
               / inject_Z (Z.of_nat (length accuracies)))%Q in
       portfolio_value ← for_each (PyDict.values signals)
         (λ df total, r ← iloc_last df; mret (total + MLModel.close_of r)%Q) 0%Q;
       let daily_change := (portfolio_value - previous_value)%Q in
       let daily_change_pct :=
         if Qeq_bool previous_value 0 then 0%Q
         else (daily_change / previous_value * 100)%Q in
       stamp ← observe (now w);
       let summary_data :=
         [VStr stamp; VInt total_symbols; VInt buy_signals; VInt sell_signals;
          VInt hold_signals;
          VStr (format_float w ".2%" avg_accuracy);
          VStr (format_float w ".2f" portfolio_value);
          VStr (format_float w ".2f" daily_change);
          VStr (format_float w ".2f" daily_change_pct +:+ "%")] in
       all_values ← perform (λ t, gs_get_all_values w t "Portfolio_Summary")
                            (EvGetAllValues "Portfolio_Summary");
       (if bool_decide (all_values = []) then
          perform (λ t, gs_append_row w t "Portfolio_Summary" summary_headers)
                  (EvAppendRow "Portfolio_Summary" summary_headers)
        else mret ());;
       perform (λ t, gs_append_row w t "Portfolio_Summary" summary_data)
               (EvAppendRow "Portfolio_Summary" summary_data);;
       log INFO "Portfolio summary logged to Google Sheets")
      (λ e, log ERROR ("Error logging portfolio summary: " +:+ str e)).

End with_world.

End GoogleSheetsLogger.

(** ** [class TelegramNotifier] *)

Module TelegramNotifier.

Import Py.

Record notifier : Type := mkNotifier {
  bot_token : option string;
  chat_id : option string;
  base_url : option string
}.

(** Truth value of an optional string: [None] and [""] are false. *)
Definition truthy (s : option string) : bool :=
  match s with
  | Some s => negb (bool_decide (s = ""))
  | None => false
  end.

Definition init (bot_token chat_id : option string) : notifier :=
  {| bot_token := bot_token;
     chat_id := chat_id;
     base_url :=
       if truthy bot_token then
         Some ("https://api.telegram.org/bot" +:+ default "" bot_token +:+ "/sendMessage")
       else None |}.

Section with_world.
Variable w : world.

Definition send_alert (self : notifier) (message : string) : M () :=
  if negb (truthy (base_url self)) || negb (truthy (chat_id self)) then
    log WARNING "Telegram token or chat id not provided - skipping alert."
  else
    let url := default "" (base_url self) in
    let chat := default "" (chat_id self) in
    try_except
      (response ← perform (λ t, requests_post w t url chat message) (EvPost url chat message);
       if decide (response.1 = 200%Z) then log INFO "Telegram alert sent successfully"
       else log ERROR ("Failed to send Telegram alert: " +:+ response.2))
      (λ e, log ERROR ("Error sending Telegram alert: " +:+ str e)).

End with_world.

End TelegramNotifier.

(** ** [class TradingSystem] *)

Module TradingSystem.

Import Float yfinance Py TradingStrategy.

(** The environment variables [__init__] reads. *)
Record config : Type := mkConfig {
  symbols : list string;
  credentials_file : string;
  telegram_token : option string;
  telegram_chat_id : option string
}.

(** [os.getenv('SYMBOLS', ...)] and [os.getenv('GOOGLE_CREDENTIALS', ...)]
    with their defaults; the Telegram variables have none. *)
Definition default_config (telegram_token telegram_chat_id : option string) : config :=
  {| symbols := ["RELIANCE.NS"; "INFY.NS"; "ICICIBANK.NS"]%string;
     credentials_file := "service-account.json";
     telegram_token := telegram_token;
     telegram_chat_id := telegram_chat_id |}.

(** The components that hold state after [__init__]. *)
Record system : Type := mkSystem {
  sys_symbols : list string;
  sheets_logger : GoogleSheetsLogger.sheet;
  telegram_notifier : TelegramNotifier.notifier
}.

(** How [run_system] ended.  Python returns [None] either way; the tag
    tells the early [return] from the end of the body. *)
Inductive outcome : Type := ABORTED | SUCCESS.

Section with_libraries.
Variable w : world.
Variable sk : sklearn.library.

Definition init (cfg : config) : M system :=
  sheet ← GoogleSheetsLogger.init w (credentials_file cfg);
  mret {| sys_symbols := symbols cfg;
          sheets_logger := sheet;
          telegram_notifier :=
            TelegramNotifier.init (telegram_token cfg) (telegram_chat_id cfg) |}.

(** The newline character. *)
Definition nl : string := String (Ascii.ascii_of_nat 10) "".

(** [str(list_of_strings)]. *)
Definition repr_list (l : list string) : string :=
  "[" +:+ String.concat ", " ((λ s, "'" +:+ s +:+ "'") <$> l) +:+ "]".

(** The loop that builds the alert text. *)
Definition alert_text (signals : PyDict.dict (list SignalRow))
    (accuracies : PyDict.dict Q) : M string :=
  for_each signals
    (λ '(symbol, df) alert_msg,
       last_signal ← GoogleSheetsLogger.iloc_last df;
       let alert_msg :=
         alert_msg +:+ "*" +:+ symbol +:+ "*: Signal=" +:+ pretty (Signal last_signal)
           +:+ ", Close=" +:+ format_float w ".2f" (MLModel.close_of last_signal)
           +:+ nl in
       mret (match PyDict.get symbol accuracies with
             | Some accuracy =>
                 alert_msg +:+ "ML Accuracy: " +:+ format_float w ".2f" accuracy +:+ nl
             | None => alert_msg
             end))
    ("*Trading System Update*" +:+ nl +:+ nl).

(** Everything [run_system] does once signals and accuracies are there. *)
Definition report (self : system) (signals : PyDict.dict (list SignalRow))
    (accuracies : PyDict.dict Q) : M outcome :=
  GoogleSheetsLogger.log_trades w (sheets_logger self) signals;;
  GoogleSheetsLogger.log_portfolio w (sheets_logger self) signals accuracies;;
  alert_msg ← alert_text signals accuracies;
  TelegramNotifier.send_alert w (telegram_notifier self) alert_msg;;
  log INFO "Trading system execution completed";;
  mret SUCCESS.

Definition run_system (self : system) : M outcome :=
  log INFO "Starting trading system execution";;
  data ← DataFetcher.fetch_data w (sys_symbols self) "6mo";
  if PyDict.is_empty data then
    log ERROR "No data fetched for any symbol. Aborting execution.";;
    mret ABORTED
  else
    log INFO ("Successfully fetched data for symbols: " +:+ repr_list (PyDict.keys data));;
    signals ← generate_signals data;
    '(models, accuracies) ← MLModel.train_models w sk signals;
    report self signals accuracies.

End with_libraries.

End TradingSystem.

(** ** Example inputs *)

Module Examples.

Import yfinance Py.

(** [n] daily bars whose close rises by one each day, from 100. *)
Definition rising (n : nat) : list Bar :=
  (λ i, mkBar (Z.of_nat i) 100 100 100 (inject_Z (100 + Z.of_nat i)) 1000) <$> seq 0 n.

(** [n] daily bars whose close falls by one each day, from 1000. *)
Definition falling (n : nat) : list Bar :=
  (λ i, mkBar (Z.of_nat i) 100 100 100 (inject_Z (1000 - Z.of_nat i)) 1000) <$> seq 0 n.

(** A classifier that always answers the first training label (what a
    decision tree does on one-class data), with the identity shuffle. *)
Definition constant_classifier : sklearn.library :=
  {| sklearn.model := Z;
     sklearn.fit := λ _ y, default 0%Z (head y);
     sklearn.predict := λ m _, m;
     sklearn.permutation := seq 0;
     sklearn.permutation_ok := λ n, reflexivity (seq 0 n) |}.

(** A world in which every remote call succeeds with an empty answer and
    no credentials file exists. *)
Definition quiet_world : world :=
  {| yf_info := λ _ _, inr [];
     yf_history := λ _ _ _, inr [];
     os_path_exists := λ _ _, false;
     gs_credentials := λ _ _, inr ();
     gs_authorize := λ _, inr ();
     gs_open := λ _ _, inr ();
     gs_worksheet := λ _ _, inr ();
     gs_get_all_values := λ _ _, inr [];
     gs_append_rows := λ _ _ _, inr ();
     gs_append_row := λ _ _ _, inr ();
     requests_post := λ _ _ _ _, inr (200%Z, "ok"%string);
     now := λ _, "2024-01-01 09:30:00"%string;
     format_float := λ _ _, "?"%string;
     float_of_string := λ _, None;
     format_exc := str |}.

(** The provider throttles the first history request and serves 60 rising
    bars on every later one; [Ticker.info] always answers. *)
Definition rate_limited_once : world :=
  {| yf_info := λ _ symbol, inr [("symbol", symbol)]%string;
     yf_history := λ t _ _,
       if existsb (λ e, match e with EvHistory _ _ _ => true | _ => false end) t
       then inr (rising 60)
       else inl (Exception "429 Too Many Requests");
     os_path_exists := λ _ _, false;
     gs_credentials := λ _ _, inr ();
     gs_authorize := λ _, inr ();
     gs_open := λ _ _, inr ();
     gs_worksheet := λ _ _, inr ();
     gs_get_all_values := λ _ _, inr [];
     gs_append_rows := λ _ _ _, inr ();
     gs_append_row := λ _ _ _, inr ();
     requests_post := λ _ _ _ _, inr (200%Z, "ok"%string);
     now := λ _, "2024-01-01 09:30:00"%string;
     format_float := λ _ _, "?"%string;
     float_of_string := λ _, None;
     format_exc := str |}.

(** A system without spreadsheet credentials and without Telegram
    settings, on the default symbols. *)
Definition unconfigured : TradingSystem.system :=
  {| TradingSystem.sys_symbols := ["RELIANCE.NS"; "INFY.NS"; "ICICIBANK.NS"]%string;
     TradingSystem.sheets_logger := None;
     TradingSystem.telegram_notifier := TelegramNotifier.init None None |}.

(** A system without spreadsheet credentials whose Telegram token and chat
    id are set. *)
Definition telegram_only : TradingSystem.system :=
  {| TradingSystem.sys_symbols := ["AAA"; "BBB"]%string;
     TradingSystem.sheets_logger := None;
     TradingSystem.telegram_notifier :=
       TelegramNotifier.init (Some "TOKEN") (Some "42")%string |}.

End Examples.

(** ** Vocabulary of the specification *)

Module Spec.

Import Float TradingStrategy.

(** [a < b] holds: both cells are numbers and the first is the smaller. *)
Definition lt (a b : cell) : Prop :=
  ∃ x y, a = Some x ∧ b = Some y ∧ (x < y)%Q.

(** The buy condition: oscillator below 30 and 20-period MA above the
    50-period MA. *)
Definition buy (r : IndicatorRow) : Prop :=
  lt (RSI r) (of_Z 30) ∧ lt (MA_50 r) (MA_20 r).

(** The sell condition: oscillator above 70 or 20-period MA below the
    50-period MA. *)
Definition sell (r : IndicatorRow) : Prop :=
  lt (of_Z 70) (RSI r) ∨ lt (MA_20 r) (MA_50 r).

Import yfinance Py.

(** The [Ticker.history] requests of a trace, in order, as
    [(symbol, period)]. *)
Definition history_requests (t : trace) : list (string * string) :=
  omap (λ e, match e with EvHistory s p _ => Some (s, p) | _ => None end) t.

(** Some history request for the symbol returned a non-empty series. *)
Definition yielded (symbol : string) (t : trace) : Prop :=
  ∃ period hist, EvHistory symbol period (inr hist) ∈ t ∧ hist ≠ [].

(** The events of the fetcher: logging, sleeping and the two provider
    calls. *)
Definition fetch_event (e : event) : Prop :=
  match e with
  | EvLog _ _ | EvSleep _ | EvInfo _ _ | EvHistory _ _ _ => True
  | _ => False
  end.

(** What the fetcher knows after some events: a key for exactly the
    symbols that yielded a non-empty series, and no empty series stored. *)
Definition fetch_inv (data : PyDict.dict (list Bar)) (evs : trace) : Prop :=
  (∀ s, is_Some (PyDict.get s data) ↔ yielded s evs)
  ∧ (∀ s hist, (s, hist) ∈ data → hist ≠ []).

(** The computation returns, whatever the world answers. *)
Definition never_raises {A} (m : M A) : Prop :=
  ∀ t, ∃ a t', m t = (inr a, t').

End Spec.

(** ** Observations on frames and traces

    What the further properties read off a frame, a provider answer or the
    trace of a run. *)

Module Obs.

Import Float yfinance Py TradingStrategy.

(** The indicator values of a row, without its price columns. *)
Definition indicator_values (r : IndicatorRow) : cell * cell * cell * cell * cell :=
  (RSI r, MA_20 r, MA_50 r, MACD r, MACD_signal r).

(** The pauses of a trace, in seconds, in order. *)
Definition sleeps (t : trace) : list nat :=
  omap (λ e, match e with EvSleep secs => Some secs | _ => None end) t.

(** A line written to the log. *)
Definition is_log (e : event) : Prop :=
  match e with EvLog _ _ => True | _ => False end.

(** Whether the answer of [ticker.info] lets the attempt go on to
    [ticker.history]: a non-empty dictionary, or an error that is not a
    rate limit. *)
Definition info_lets_through (x : exn + info) : bool :=
  match x with
  | inr i => negb (PyDict.is_empty i)
  | inl e => negb (DataFetcher.rate_limited e)
  end.

(** What the symbol loop of [fetch_data] keeps true of the mapping: no key
    twice, only symbols already visited, and every stored series is the
    answer of a history request for that symbol and one of the periods. *)
Definition provenance (period : string) (done : list string)
    (data : PyDict.dict (list Bar)) (evs : trace) : Prop :=
  NoDup (PyDict.keys data)
  ∧ (∀ s, s ∈ PyDict.keys data → s ∈ done)
  ∧ (∀ s hist, PyDict.get s data = Some hist →
       ∃ p, p ∈ DataFetcher.periods_to_try period ∧ EvHistory s p (inr hist) ∈ evs).

(** The [append_rows] calls of a trace, in order: worksheet and rows. *)
Definition append_rows_calls (t : trace) : list (string * list (list value)) :=
  omap (λ e, match e with EvAppendRows ws rows _ => Some (ws, rows) | _ => None end) t.

(** The [append_row] calls of a trace, in order: worksheet and row. *)
Definition append_row_calls (t : trace) : list (string * list value) :=
  omap (λ e, match e with EvAppendRow ws row _ => Some (ws, row) | _ => None end) t.

(** The answers of the [get_all_values] calls of a trace, in order. *)
Definition get_all_values_answers (t : trace) : list (exn + list (list string)) :=
  omap (λ e, match e with EvGetAllValues _ r => Some r | _ => None end) t.

(** [row] is the trade-log row of [entry]: a time stamp, the symbol and
    the values of the last row of its frame, a missing indicator as 0. *)
Definition is_trade_row (entry : string * list SignalRow) (row : list value) : Prop :=
  ∃ stamp r, last entry.2 = Some r
    ∧ row = [VStr stamp; VStr entry.1; VInt (Signal r);
             VFloat (Close (bar (indicators r)));
             GoogleSheetsLogger.float_or_0 (RSI (indicators r));
             GoogleSheetsLogger.float_or_0 (MA_20 (indicators r));
             GoogleSheetsLogger.float_or_0 (MA_50 (indicators r))].

(** How many frames end on the signal [z]. *)
Definition last_signal_count (z : Z) (signals : PyDict.dict (list SignalRow)) : nat :=
  length (filter (λ entry, Signal <$> last entry.2 = Some z)
                 (signals : list (string * list SignalRow))).

(** [row] is a portfolio summary of [signals]: a time stamp, the number of
    symbols, how many of them end on a buy, on a sell and on neither, and
    four formatted figures. *)
Definition is_summary_row (signals : PyDict.dict (list SignalRow)) (row : list value)
    : Prop :=
  ∃ stamp hold accuracy value change pct,
    row = [VStr stamp; VInt (Z.of_nat (length signals));
           VInt (Z.of_nat (last_signal_count 1 signals));
           VInt (Z.of_nat (last_signal_count (-1) signals));
           VInt hold; VStr accuracy; VStr value; VStr change; VStr pct]
    ∧ (0 ≤ hold)%Z
    ∧ (Z.of_nat (last_signal_count 1 signals)
       + Z.of_nat (last_signal_count (-1) signals) + hold
       = Z.of_nat (length signals))%Z.

End Obs.

(** ** Further example inputs *)

Module MoreExamples.

Import yfinance Py.

(** The provider serves 50 falling bars for every request. *)
Definition fifty_bar_market : world :=
  {| yf_info := λ _ symbol, inr [("symbol", symbol)]%string;
     yf_history := λ _ _ _, inr (Examples.falling 50);
     os_path_exists := λ _ _, false;
     gs_credentials := λ _ _, inr ();
     gs_authorize := λ _, inr ();
     gs_open := λ _ _, inr ();
     gs_worksheet := λ _ _, inr ();
     gs_get_all_values := λ _ _, inr [];
     gs_append_rows := λ _ _ _, inr ();
     gs_append_row := λ _ _ _, inr ();
     requests_post := λ _ _ _ _, inr (200%Z, "ok"%string);
     now := λ _, "2024-01-01 09:30:00"%string;
     format_float := λ _ _, "?"%string;
     float_of_string := λ _, None;
     format_exc := str |}.

(** The bars of [Examples.rising n] with other prices than the close and
    another volume. *)
Definition rising_other_prices (n : nat) : list Bar :=
  (λ b, mkBar (Date b) (Close b + 7)%Q (Close b + 9)%Q (Close b - 9)%Q (Close b) 1%Z)
    <$> Examples.rising n.

End MoreExamples.

(** * Proofs *)

(** Unfolds the monad's plumbing. *)
Ltac run_M :=
  cbv [mbind M_bind mret M_ret Py.bind Py.ret Py.raise Py.try_except Py.perform
       Py.perform_total Py.observe Py.emit Py.log Py.sleep] in *.

(** ** Dictionaries *)

Section dict.
Import PyDict.
Context {V : Type}.
Implicit Types (d : dict V) (k : string) (v : V).

Lemma get_set k k' v d :
  get k' (set k v d) = if decide (k = k') then Some v else get k' d.
Proof.
  induction d as [|[k0 v0] d IH]; simpl.
  - repeat case_decide; congruence.
  - destruct (decide (k0 = k)) as [->|Hne]; simpl.
    + repeat case_decide; congruence.
    + rewrite IH. repeat case_decide; congruence.
Qed.

Lemma elem_of_set k v k' v' d :
  (k', v') ∈ set k v d → (k' = k ∧ v' = v) ∨ (k', v') ∈ d.
Proof.
  induction d as [|[k0 v0] d IH]; simpl.
  - intros [[= -> ->]|[]%elem_of_nil]%elem_of_cons. by left.
  - case_decide as Hk.
    + intros [[= -> ->]|Hin]%elem_of_cons; [by left|]. right. by right.
    + intros [[= -> ->]|Hin]%elem_of_cons; [right; left|].
      apply IH in Hin as [?|?]; [by left|right; by right].
Qed.

Lemma get_Some_elem_of k v d : get k d = Some v → (k, v) ∈ d.
Proof.
  induction d as [|[k0 v0] d IH]; simpl; [done|].
  case_decide as Hk.
  - intros [= ->]. subst. left.
  - intros H. right. auto.
Qed.

Lemma elem_of_get k v d : NoDup (keys d) → (k, v) ∈ d → get k d = Some v.
Proof.
  unfold keys. induction d as [|[k0 v0] d IH]; simpl.
  - by intros _ ?%elem_of_nil.
  - intros [Hnotin Hnd]%NoDup_cons [[= -> ->]|Hin]%elem_of_cons.
    + by rewrite decide_True.
    + rewrite decide_False; [by apply IH|].
      intros ->. apply Hnotin. apply list_elem_of_fmap. by exists (k, v).
Qed.

End dict.

(** ** Shape of the TA-Lib outputs *)

Section talib_shape.
Import Float talib.

Lemma SMA_run_length timeperiod inReal : ∀ periodTotal window,
  length (SMA_run timeperiod periodTotal window inReal) = length inReal.
Proof.
  induction inReal as [|x rest IH]; intros periodTotal window; [done|].
  simpl. destruct window; simpl; by rewrite IH.
Qed.

Lemma SMA_core_length timeperiod inReal :
  length (SMA_core timeperiod inReal) = length inReal - SMA_lookback timeperiod.
Proof.
  unfold SMA_core. case_match eqn:Hle.
  - apply Nat.leb_le in Hle. simpl. lia.
  - rewrite SMA_run_length, length_drop. done.
Qed.

Lemma EMA_run_length k inReal : ∀ prevMA,
  length (EMA_run k prevMA inReal) = length inReal.
Proof. induction inReal as [|x rest IH]; intros prevMA; simpl; [done|by rewrite IH]. Qed.

Lemma INT_EMA_length startIdx inReal timeperiod k :
  length (INT_EMA startIdx inReal timeperiod k)
  = length inReal - (startIdx `max` EMA_lookback timeperiod).
Proof.
  unfold INT_EMA. case_match eqn:Hle.
  - apply Nat.leb_le in Hle. simpl. lia.
  - apply Nat.leb_gt in Hle. simpl. rewrite EMA_run_length, length_drop. lia.
Qed.

Lemma RSI_run_length timeperiod inReal : ∀ prevValue prevGain prevLoss,
  length (RSI_run timeperiod prevValue prevGain prevLoss inReal) = length inReal.
Proof.
  induction inReal as [|x rest IH]; intros; simpl; [done|by rewrite IH].
Qed.

Lemma RSI_core_length timeperiod inReal :
  length (RSI_core timeperiod inReal) = length inReal - RSI_lookback timeperiod.
Proof.
  unfold RSI_core, RSI_lookback. destruct inReal as [|first rest]; [done|].
  case_match eqn:Hlt.
  - apply Nat.ltb_lt in Hlt. simpl. lia.
  - apply Nat.ltb_ge in Hlt. case_match eqn:Hone.
    + apply Nat.eqb_eq in Hone. simpl. lia.
    + destruct (RSI_seed _ _ _ _) as [[prevValue prevGain] prevLoss].
      simpl. rewrite RSI_run_length, length_drop. lia.
Qed.

Lemma MACD_core_length inReal :
  let '(m, s, h) := MACD_core inReal 12 26 9 in
  length m = length inReal - 33 ∧ length s = length inReal - 33
  ∧ length h = length inReal - 33.
Proof.
  unfold MACD_core. simpl.
  rewrite !length_zip_with, !length_drop, !INT_EMA_length, !length_zip_with, !INT_EMA_length.
  unfold EMA_lookback. simpl. lia.
Qed.

(** A padded output is NaN below the lookback and a number from there on. *)
Lemma pad_output_lookup lookback n out i :
  length out = n - lookback → i < n →
  ∃ c, pad_output lookback n out !! i = Some c ∧ (isnan c = true ↔ i < lookback).
Proof.
  intros Hout Hi. unfold pad_output.
  destruct (decide (i < lookback)) as [Hlt|Hge].
  - exists NaN. split; [|done].
    rewrite lookup_app_l by (rewrite length_replicate; lia).
    apply lookup_replicate_2. lia.
  - rewrite lookup_app_r by (rewrite length_replicate; lia).
    rewrite length_replicate, list_lookup_fmap.
    destruct (lookup_lt_is_Some_2 out (i - lookback `min` n)) as [q Hq]; [lia|].
    exists (Some q). rewrite Hq. split; [done|]. simpl. split; [done|lia].
Qed.

End talib_shape.

(** ** The signal generator *)

Section strategy.
Import Float TradingStrategy yfinance.

Lemma isnan_true c : isnan c = true ↔ c = NaN.
Proof. by destruct c. Qed.

Lemma Qltb_lt x y : Qltb x y = true ↔ (x < y)%Q.
Proof.
  unfold Qltb. rewrite negb_true_iff, <- not_true_iff_false, Qle_bool_iff.
  split; [apply Qnot_le_lt|apply Qlt_not_le].
Qed.

Lemma ltb_lt a b : ltb a b = true ↔ Spec.lt a b.
Proof.
  unfold ltb, Spec.lt. destruct a as [x|], b as [y|]; simpl.
  - rewrite Qltb_lt. split; [intros H; by exists x, y|].
    by intros (x' & y' & [= <-] & [= <-] & H).
  - split; [done|]. by intros (x' & y' & _ & [=] & _).
  - split; [done|]. by intros (x' & y' & [=] & _).
  - split; [done|]. by intros (x' & y' & [=] & _).
Qed.

Lemma lt_asym a b : Spec.lt a b → ¬ Spec.lt b a.
Proof.
  intros (x & y & -> & -> & Hxy) (y' & x' & [= <-] & [= <-] & Hyx).
  apply (Qlt_irrefl x). by eapply Qlt_trans.
Qed.

Lemma lt_trans a b c : Spec.lt a b → Spec.lt b c → Spec.lt a c.
Proof.
  intros (x & y & -> & -> & Hxy) (y' & z & [= <-] & -> & Hyz).
  exists x, z. repeat split. by eapply Qlt_trans.
Qed.

Lemma at_index_pad lookback n out i :
  length out = n - lookback → i < n →
  isnan (at_index (talib.pad_output lookback n out) i) = true ↔ i < lookback.
Proof.
  intros Hout Hi. destruct (pad_output_lookup lookback n out i Hout Hi) as (c & Hc & Hnan).
  unfold at_index. by rewrite Hc.
Qed.

Lemma calculate_indicators_length df : length (calculate_indicators df) = length df.
Proof.
  unfold calculate_indicators. destruct (talib.MACD _ _ _ _) as [[m s] h].
  by rewrite length_imap.
Qed.

(** Where each indicator column is missing: exactly below its lookback. *)
Lemma calculate_indicators_lookup df i r :
  calculate_indicators df !! i = Some r →
  df !! i = Some (bar r)
  ∧ (isnan (RSI r) = true ↔ i < 14)
  ∧ (isnan (MA_20 r) = true ↔ i < 19)
  ∧ (isnan (MA_50 r) = true ↔ i < 49)
  ∧ (isnan (MACD r) = true ↔ i < 33)
  ∧ (isnan (MACD_signal r) = true ↔ i < 33).
Proof.
  unfold calculate_indicators, talib.MACD.
  pose proof (MACD_core_length (Close <$> df)) as Hmacd.
  destruct (talib.MACD_core _ _ _ _) as [[m s] h]. destruct Hmacd as (Hm & Hs & _).
  rewrite list_lookup_imap. destruct (df !! i) as [b|] eqn:Hb; [|done].
  simpl. intros [= <-]. simpl. apply lookup_lt_Some in Hb.
  assert (i < length (Close <$> df)) as Hi by by rewrite length_fmap.
  split; [done|]. unfold talib.RSI, talib.SMA.
  split; [apply at_index_pad; [by rewrite RSI_core_length|done]|].
  split; [apply at_index_pad; [by rewrite SMA_core_length|done]|].
  split; [apply at_index_pad; [by rewrite SMA_core_length|done]|].
  split; by apply at_index_pad.
Qed.

(** The signal a row gets, read off the two masks. *)
Lemma signal_column_lookup df i s :
  signal_column df !! i = Some s →
  ∃ r, df !! i = Some r ∧
       s = if gtb (RSI r) (of_Z 70) || ltb (MA_20 r) (MA_50 r) then (-1)%Z
           else if ltb (RSI r) (of_Z 30) && gtb (MA_20 r) (MA_50 r) then 1%Z
           else 0%Z.
Proof.
  unfold signal_column, loc_assign, sell_condition, buy_condition.
  rewrite !lookup_zip_with, !list_lookup_fmap.
  destruct (df !! i) as [r|] eqn:Hr; [|done]. simpl.
  rewrite lookup_replicate_2 by by eapply lookup_lt_Some. simpl.
  intros [= <-]. exists r. split; [done|].
  by destruct (gtb (RSI r) (of_Z 70) || ltb (MA_20 r) (MA_50 r)),
              (ltb (RSI r) (of_Z 30) && gtb (MA_20 r) (MA_50 r)).
Qed.

Lemma signal_column_length df : length (signal_column df) = length df.
Proof.
  unfold signal_column, loc_assign, sell_condition, buy_condition.
  rewrite !length_zip_with, !length_fmap, length_replicate. lia.
Qed.

Lemma ffill_from_length {A} (column : list (option A)) : ∀ carry,
  length (ffill_from carry column) = length column.
Proof. induction column as [|x rest IH]; intros carry; simpl; [done|by rewrite IH]. Qed.

Lemma position_column_length signal : length (position_column signal) = length signal.
Proof.
  unfold position_column, ffill, replace_with_None.
  by rewrite ffill_from_length, length_fmap.
Qed.

(** Forward fill as a scan with carry: the value at row [i] is the last
    non-zero entry at or before [i], or the carry when there is none. *)
Lemma ffill_from_spec (signal : list Z) : ∀ carry i p,
  ffill_from carry (replace_with_None 0 signal) !! i = Some p →
  (∃ j s, j ≤ i ∧ signal !! j = Some s ∧ s ≠ 0%Z ∧ p = Some s
          ∧ ∀ k, j < k ≤ i → signal !! k = Some 0%Z)
  ∨ (p = carry ∧ ∀ k, k ≤ i → signal !! k = Some 0%Z).
Proof.
  induction signal as [|x rest IH]; intros carry i p; [done|].
  simpl. destruct i as [|i]; simpl.
  - intros [= <-]. case_decide as Hx.
    + right. split; [done|]. intros k Hk. replace k with 0 by lia. by subst.
    + left. exists 0, x. repeat split; [done..|]. intros k Hk. lia.
  - intros Hp. apply IH in Hp as [(j & s & Hj & Hs & Hne & -> & Hz)|[-> Hz]].
    + left. exists (S j), s. repeat split; [lia|done..|].
      intros [|k] Hk; [lia|]. simpl. apply Hz. lia.
    + case_decide as Hx.
      * right. split; [done|]. intros [|k] Hk; simpl; [by subst|]. apply Hz. lia.
      * left. exists 0, x. repeat split; [lia|done..|].
        intros [|k] Hk; [lia|]. simpl. apply Hz. lia.
Qed.

(** A row of the generated frame: its indicator row, signal and position. *)
Lemma generate_signals_df_lookup df i r :
  generate_signals_df df !! i = Some r →
  calculate_indicators df !! i = Some (indicators r)
  ∧ signal_column (calculate_indicators df) !! i = Some (Signal r)
  ∧ position_column (signal_column (calculate_indicators df)) !! i = Some (Position r).
Proof.
  unfold generate_signals_df. rewrite lookup_zip_with.
  destruct (calculate_indicators df !! i) as [ir|]; [|done]. simpl.
  rewrite lookup_zip_with.
  destruct (signal_column _ !! i) as [s|]; [|done]. simpl.
  destruct (position_column _ !! i) as [p|]; [|done]. simpl.
  by intros [= <-].
Qed.

Lemma generate_signals_df_length df : length (generate_signals_df df) = length df.
Proof.
  unfold generate_signals_df.
  rewrite length_zip_with, length_zip, position_column_length, signal_column_length.
  rewrite calculate_indicators_length. lia.
Qed.

Lemma signal_of_row df i r :
  generate_signals_df df !! i = Some r →
  Signal r =
    if gtb (RSI (indicators r)) (of_Z 70) || ltb (MA_20 (indicators r)) (MA_50 (indicators r))
    then (-1)%Z
    else if ltb (RSI (indicators r)) (of_Z 30) && gtb (MA_20 (indicators r)) (MA_50 (indicators r))
    then 1%Z else 0%Z.
Proof.
  intros (Hir & Hs & _)%generate_signals_df_lookup.
  apply signal_column_lookup in Hs as (r' & Hr' & ->).
  rewrite Hir in Hr'. by injection Hr' as <-.
Qed.

Lemma sell_reflect r :
  gtb (RSI r) (of_Z 70) || ltb (MA_20 r) (MA_50 r) = true ↔ Spec.sell r.
Proof. unfold Spec.sell, gtb. by rewrite orb_true_iff, !ltb_lt. Qed.

Lemma buy_reflect r :
  ltb (RSI r) (of_Z 30) && gtb (MA_20 r) (MA_50 r) = true ↔ Spec.buy r.
Proof. unfold Spec.buy, gtb. by rewrite andb_true_iff, !ltb_lt. Qed.

Lemma lt_30_70 : Spec.lt (of_Z 30) (of_Z 70).
Proof. exists (inject_Z 30), (inject_Z 70). by repeat split. Qed.

(** The two conditions never hold on the same row: an oscillator below 30
    is not above 70, and a 20-period MA above the 50-period MA is not below
    it.  The precedence of sell over buy is therefore never exercised. *)
Lemma buy_sell_exclusive r : Spec.buy r → ¬ Spec.sell r.
Proof.
  intros [Hrsi Hma] [Hs|Hs].
  - eapply lt_asym; [exact lt_30_70|]. by eapply lt_trans.
  - by eapply lt_asym.
Qed.

(** The rule shared by the claims about [Signal]. *)
Lemma signal_cases df i r :
  generate_signals_df df !! i = Some r →
  (Signal r = 1%Z ↔ Spec.buy (indicators r) ∧ ¬ Spec.sell (indicators r))
  ∧ (Signal r = (-1)%Z ↔ Spec.sell (indicators r))
  ∧ (Signal r = 0%Z ↔ ¬ Spec.buy (indicators r) ∧ ¬ Spec.sell (indicators r)).
Proof.
  intros Hr. rewrite (signal_of_row _ _ _ Hr).
  pose proof (sell_reflect (indicators r)) as Hsell.
  pose proof (buy_reflect (indicators r)) as Hbuy.
  destruct (gtb _ _ || ltb _ _) eqn:Es; destruct (ltb _ _ && gtb _ _) eqn:Eb;
    rewrite <- Hsell, <- Hbuy; clear; repeat split; intros; try done; intuition congruence.
Qed.

(** C1.  On every row the signal generator produces, [Signal] is +1
    exactly when the buy condition (oscillator < 30 and 20-period MA >
    50-period MA) holds and the sell condition does not, -1 exactly when
    the sell condition (oscillator > 70 or 20-period MA < 50-period MA)
    holds, and 0 exactly when neither holds; on a row where both hold the
    signal is -1. *)
Theorem signal_rule (df : list Bar) (i : nat) (r : SignalRow) :
  generate_signals_df df !! i = Some r →
  (Signal r = 1%Z ↔ Spec.buy (indicators r) ∧ ¬ Spec.sell (indicators r))
  ∧ (Signal r = (-1)%Z ↔ Spec.sell (indicators r))
  ∧ (Signal r = 0%Z ↔ ¬ Spec.buy (indicators r) ∧ ¬ Spec.sell (indicators r))
  ∧ (Spec.buy (indicators r) ∧ Spec.sell (indicators r) → Signal r = (-1)%Z).
Proof.
  intros Hr. destruct (signal_cases df i r Hr) as (Hbuy & Hsell & Hhold).
  split; [exact Hbuy|]. split; [exact Hsell|]. split; [exact Hhold|].
  intros [_ Hs]. by apply Hsell.
Qed.

Lemma signal_rule_witness :
  ∃ r, generate_signals_df (Examples.rising 20) !! 14 = Some r
  ∧ (Signal r = 1%Z ↔ Spec.buy (indicators r) ∧ ¬ Spec.sell (indicators r))
  ∧ (Signal r = (-1)%Z ↔ Spec.sell (indicators r))
  ∧ (Signal r = 0%Z ↔ ¬ Spec.buy (indicators r) ∧ ¬ Spec.sell (indicators r))
  ∧ (Spec.buy (indicators r) ∧ Spec.sell (indicators r) → Signal r = (-1)%Z).
Proof.
  eexists. split; [vm_compute; reflexivity|].
  apply (signal_rule (Examples.rising 20) 14). vm_compute. reflexivity.
Defined.

(** C5.  On every row the signal generator produces, [Signal] is one of
    -1, 0, +1, and [Position] is the most recent non-zero [Signal] at or
    before that row: it is [Some p] with [p] the signal of a row [j <= i]
    after which every signal up to [i] is 0, or it is missing and every
    signal up to [i] is 0. *)
Theorem position_is_last_nonzero_signal (df : list Bar) (i : nat) (r : SignalRow) :
  generate_signals_df df !! i = Some r →
  (Signal r = (-1)%Z ∨ Signal r = 0%Z ∨ Signal r = 1%Z)
  ∧ match Position r with
    | Some p =>
        p ≠ 0%Z
        ∧ ∃ j rj, j ≤ i ∧ generate_signals_df df !! j = Some rj ∧ Signal rj = p
                  ∧ ∀ k rk, j < k ≤ i → generate_signals_df df !! k = Some rk
                            → Signal rk = 0%Z
    | None =>
        ∀ k rk, k ≤ i → generate_signals_df df !! k = Some rk → Signal rk = 0%Z
    end.
Proof.
  intros Hr. split.
  { rewrite (signal_of_row _ _ _ Hr). repeat case_match; auto. }
  pose proof Hr as (_ & _ & Hpos)%generate_signals_df_lookup.
  assert (∀ k rk s, generate_signals_df df !! k = Some rk →
            signal_column (calculate_indicators df) !! k = Some s → Signal rk = s) as Hsig.
  { intros k rk s (_ & Hs & _)%generate_signals_df_lookup Hs'. congruence. }
  apply ffill_from_spec in Hpos as [(j & s & Hj & Hs & Hne & -> & Hz)|[-> Hz]].
  - split; [done|].
    destruct (lookup_lt_is_Some_2 (generate_signals_df df) j) as [rj Hrj].
    { apply lookup_lt_Some in Hr. lia. }
    exists j, rj. repeat split; [done..|by eapply Hsig|].
    intros k rk Hk Hrk. eapply Hsig; [done|]. by apply Hz.
  - intros k rk Hk Hrk. eapply Hsig; [done|]. by apply Hz.
Qed.

Lemma position_is_last_nonzero_signal_witness :
  ∃ r, generate_signals_df (Examples.rising 20) !! 16 = Some r
  ∧ (Signal r = (-1)%Z ∨ Signal r = 0%Z ∨ Signal r = 1%Z)
  ∧ match Position r with
    | Some p =>
        p ≠ 0%Z
        ∧ ∃ j rj, j ≤ 16 ∧ generate_signals_df (Examples.rising 20) !! j = Some rj
                  ∧ Signal rj = p
                  ∧ ∀ k rk, j < k ≤ 16 → generate_signals_df (Examples.rising 20) !! k = Some rk
                            → Signal rk = 0%Z
    | None =>
        ∀ k rk, k ≤ 16 → generate_signals_df (Examples.rising 20) !! k = Some rk
                → Signal rk = 0%Z
    end.
Proof.
  eexists. split; [vm_compute; reflexivity|].
  apply (position_is_last_nonzero_signal (Examples.rising 20) 16). vm_compute. reflexivity.
Defined.

(** C9.  For a price series of at least 50 rows, the indicator frame has
    a 50th row (index 49), every indicator column is defined from that row
    onward, and each column is missing before its own warm-up: the
    oscillator on rows 0..13, the 20-period MA on rows 0..18, the
    50-period MA on rows 0..48, the trend value and its signal line on
    rows 0..32. *)
Theorem indicators_defined_after_warmup (df : list Bar) :
  50 ≤ length df →
  length (calculate_indicators df) = length df
  ∧ is_Some (calculate_indicators df !! 49)
  ∧ ∀ i r, calculate_indicators df !! i = Some r →
      (49 ≤ i → isnan (RSI r) = false ∧ isnan (MA_20 r) = false ∧ isnan (MA_50 r) = false
                ∧ isnan (MACD r) = false ∧ isnan (MACD_signal r) = false)
      ∧ (i < 14 → RSI r = NaN)
      ∧ (i < 19 → MA_20 r = NaN)
      ∧ (i < 49 → MA_50 r = NaN)
      ∧ (i < 33 → MACD r = NaN ∧ MACD_signal r = NaN).
Proof.
  intros Hlen. split; [apply calculate_indicators_length|].
  split; [apply lookup_lt_is_Some_2; rewrite calculate_indicators_length; lia|].
  intros i r (_ & Hrsi & H20 & H50 & Hmacd & Hsig)%calculate_indicators_lookup.
  rewrite <- !isnan_true.
  split; [|tauto].
  intros Hi. repeat split; apply not_true_is_false; intros Hnan.
  - apply Hrsi in Hnan. lia.
  - apply H20 in Hnan. lia.
  - apply H50 in Hnan. lia.
  - apply Hmacd in Hnan. lia.
  - apply Hsig in Hnan. lia.
Qed.

Lemma indicators_defined_after_warmup_witness :
  length (calculate_indicators (Examples.rising 60)) = length (Examples.rising 60)
  ∧ is_Some (calculate_indicators (Examples.rising 60) !! 49)
  ∧ ∀ i r, calculate_indicators (Examples.rising 60) !! i = Some r →
      (49 ≤ i → isnan (RSI r) = false ∧ isnan (MA_20 r) = false ∧ isnan (MA_50 r) = false
                ∧ isnan (MACD r) = false ∧ isnan (MACD_signal r) = false)
      ∧ (i < 14 → RSI r = NaN)
      ∧ (i < 19 → MA_20 r = NaN)
      ∧ (i < 49 → MA_50 r = NaN)
      ∧ (i < 33 → MACD r = NaN ∧ MACD_signal r = NaN).
Proof. apply (indicators_defined_after_warmup (Examples.rising 60)). vm_compute. lia. Defined.

(** C10, as stated, fails: on the rising series the oscillator is 100 on
    row 14 while both moving averages are still missing, and the row is a
    sell. *)
Lemma warmup_row_can_sell :
  ∃ r, generate_signals_df (Examples.rising 20) !! 14 = Some r
       ∧ RSI (indicators r) = Some 100%Q
       ∧ MA_20 (indicators r) = NaN ∧ MA_50 (indicators r) = NaN
       ∧ Signal r = (-1)%Z.
Proof. eexists. split; [vm_compute; reflexivity|]. by vm_compute. Qed.

(** C10, amended.  On a row where an indicator used by the signal rule is
    missing the buy condition is false, so [Signal] is never +1; it is -1
    exactly when the sell condition holds on the values that are defined,
    and 0 otherwise.  A row whose oscillator and one of the moving
    averages are missing is a hold; so are the first 14 rows of every
    series. *)
Theorem missing_indicator_never_buys (df : list Bar) (i : nat) (r : SignalRow) :
  generate_signals_df df !! i = Some r →
  RSI (indicators r) = NaN ∨ MA_20 (indicators r) = NaN ∨ MA_50 (indicators r) = NaN →
  Signal r ≠ 1%Z
  ∧ (Signal r = (-1)%Z ↔ Spec.sell (indicators r))
  ∧ (Signal r = 0%Z ↔ ¬ Spec.sell (indicators r))
  ∧ (RSI (indicators r) = NaN →
     MA_20 (indicators r) = NaN ∨ MA_50 (indicators r) = NaN → Signal r = 0%Z)
  ∧ (i < 14 → Signal r = 0%Z).
Proof.
  intros Hr Hmiss. unfold NaN in *.
  destruct (signal_cases df i r Hr) as (Hbuy & Hsell & Hhold).
  assert (¬ Spec.buy (indicators r)) as Hnb.
  { intros [(x & y & Hx & _) (x' & y' & Hx' & Hy' & _)].
    destruct Hmiss as [H|[H|H]]; congruence. }
  assert (RSI (indicators r) = None →
     MA_20 (indicators r) = None ∨ MA_50 (indicators r) = None →
     ¬ Spec.sell (indicators r)) as Hns.
  { intros Hrsi Hma [(x & y & _ & Hy & _)|(x & y & Hx & Hy & _)]; [congruence|].
    destruct Hma; congruence. }
  repeat split.
  - rewrite Hbuy. tauto.
  - apply Hsell.
  - apply Hsell.
  - rewrite Hhold. tauto.
  - rewrite Hhold. tauto.
  - intros. apply Hhold. auto.
  - intros Hi. apply Hhold. split; [done|].
    pose proof Hr as (Hir & _)%generate_signals_df_lookup.
    apply calculate_indicators_lookup in Hir as (_ & Hrsi & H20 & _).
    apply Hns; [|left]; apply isnan_true; [apply Hrsi|apply H20]; lia.
Qed.

Lemma missing_indicator_never_buys_witness :
  ∃ r, generate_signals_df (Examples.rising 20) !! 14 = Some r
  ∧ Signal r ≠ 1%Z
  ∧ (Signal r = (-1)%Z ↔ Spec.sell (indicators r))
  ∧ (Signal r = 0%Z ↔ ¬ Spec.sell (indicators r))
  ∧ (RSI (indicators r) = NaN →
     MA_20 (indicators r) = NaN ∨ MA_50 (indicators r) = NaN → Signal r = 0%Z)
  ∧ (14 < 14 → Signal r = 0%Z).
Proof.
  eexists. split; [vm_compute; reflexivity|].
  apply (missing_indicator_never_buys (Examples.rising 20) 14).
  - vm_compute. reflexivity.
  - right. left. vm_compute. reflexivity.
Defined.

End strategy.

(** ** The label trainer *)

Section trainer.
Import Float yfinance Py TradingStrategy MLModel.

Lemma add_target_length df : length (add_target df) = length df.
Proof.
  unfold add_target, shift_up. rewrite !length_zip_with, length_fmap.
  destruct df as [|r df]; [done|].
  cbn [fmap list_fmap]. rewrite length_app, !length_fmap.
  cbn [length]. lia.
Qed.

(** The label of each row: the comparison with the next close, and 0 on
    the last row, whose shifted close is NaN. *)
Lemma add_target_lookup df i lr :
  add_target df !! i = Some lr →
  df !! i = Some (signal_row lr)
  ∧ match df !! S i with
    | Some next =>
        Target lr = if Qltb (close_of (signal_row lr)) (close_of next) then 1%Z else 0%Z
    | None => Target lr = 0%Z
    end.
Proof.
  unfold add_target. rewrite !lookup_zip_with, list_lookup_fmap.
  destruct (df !! i) as [r|] eqn:Hr; [|done]. simpl.
  destruct (shift_up (close_of <$> df) !! i) as [c|] eqn:Hc; [|done]. simpl.
  intros [= <-]. simpl. split; [done|].
  destruct df as [|r0 df]; [done|]. simpl in Hc |- *.
  destruct (df !! i) as [next|] eqn:Hnext.
  - rewrite lookup_app_l in Hc by (rewrite !length_fmap; by eapply lookup_lt_Some).
    rewrite !list_lookup_fmap, Hnext in Hc. by injection Hc as <-.
  - apply lookup_ge_None in Hnext. apply lookup_lt_Some in Hr. simpl in Hr.
    rewrite lookup_app_r in Hc by (rewrite !length_fmap; lia).
    rewrite !length_fmap in Hc. replace (i - length df) with 0 in Hc by lia.
    by injection Hc as <-.
Qed.

Lemma prepare_data_lengths df :
  length (prepare_data df).1 = length (prepare_data df).2.
Proof. unfold prepare_data. simpl. by rewrite !length_fmap. Qed.

(** C3, at a failing input.  On the rising series of 52 rows the rows
    that survive [dropna] are rows 49, 50 and 51: the last row of the
    series is kept, and it carries the label 0 although it has no next
    close. *)
Lemma last_row_is_labelled_and_kept :
  let df := generate_signals_df (Examples.rising 52) in
  let prepared := dropna (add_target df) in
  length df = 52
  ∧ (Date ∘ bar ∘ indicators ∘ signal_row <$> prepared) = [49; 50; 51]%Z
  ∧ (prepare_data df).2 = [1; 1; 0]%Z
  ∧ length (prepare_data df).1 = 3.
Proof. by vm_compute. Qed.

Lemma n_test_bounds n : 0 < n → 1 ≤ n_test_of n ≤ n.
Proof.
  intros Hn. unfold n_test_of, Qceiling, Qfloor. simpl.
  change (Z.pos (10 * 1)) with 10%Z.
  pose proof (Z.div_mod (- (2 * Z.of_nat n)) 10 ltac:(lia)) as Hdm.
  pose proof (Z.mod_pos_bound (- (2 * Z.of_nat n)) 10 ltac:(lia)) as Hmod.
  lia.
Qed.

(** Selecting rows by valid indices keeps one row per index. *)
Lemma omap_lookup_length {A} (l : list A) (idx : list nat) :
  Forall (λ i, i < length l) idx → length (omap (λ i, l !! i) idx) = length idx.
Proof.
  induction 1 as [|i idx Hi _ IH]; [done|]. simpl.
  destruct (lookup_lt_is_Some_2 l i Hi) as [x Hx]. rewrite Hx. simpl.
  f_equal. exact IH.
Qed.

Lemma permutation_in_range (sk : sklearn.library) n :
  Forall (λ i, i < n) (sklearn.permutation sk n).
Proof.
  rewrite (sklearn.permutation_ok sk n). apply Forall_forall.
  intros i Hi%elem_of_seq. lia.
Qed.

Lemma permutation_length (sk : sklearn.library) n :
  length (sklearn.permutation sk n) = n.
Proof. by rewrite (sklearn.permutation_ok sk n), length_seq. Qed.

(** The split either raises (one sample) or hands back a test set of
    [n_test >= 1] labels. *)
Lemma train_test_split_returns (sk : sklearn.library) X y t r t' :
  length X = length y → X ≠ [] →
  train_test_split sk X y t = (inr r, t') →
  t' = t ∧ 0 < length r.2 ∧ length r.1.1.2 = length r.2.
Proof.
  intros Hlen Hne. unfold train_test_split.
  assert (0 < length X) as Hpos by (destruct X; [done|simpl; lia]).
  pose proof (n_test_bounds _ Hpos) as Hnt.
  case_match eqn:Hz; run_M.
  { intros [=]. }
  intros [= <- <-]. simpl.
  apply Nat.eqb_neq in Hz. split; [done|].
  pose proof (permutation_in_range sk (length X)) as Hrange.
  pose proof (permutation_length sk (length X)) as Hplen.
  rewrite !omap_lookup_length.
  - rewrite length_take. lia.
  - by apply Forall_take.
  - apply Forall_take. by rewrite <- Hlen.
Qed.

Lemma accuracy_score_bounds y_true y_pred :
  0 < length y_true → (0 <= accuracy_score y_true y_pred <= 1)%Q.
Proof.
  intros Hpos. unfold accuracy_score.
  set (hits := length _).
  assert (hits ≤ length y_true) as Hhits.
  { unfold hits. etrans; [apply length_filter|]. rewrite length_zip. lia. }
  assert (0 < inject_Z (Z.of_nat (length y_true)))%Q as Hden.
  { rewrite <- (Zlt_Qlt 0). lia. }
  split.
  - apply Qle_shift_div_l; [done|]. rewrite Qmult_0_l, <- (Zle_Qle 0). lia.
  - apply Qle_shift_div_r; [done|]. rewrite Qmult_1_l, <- Zle_Qle. lia.
Qed.

(** C4, as stated, fails: the falling series of 55 rows prepares six
    rows that all carry the label 0, a single class, and the trainer still
    fits a model and records an accuracy for it. *)
Lemma single_class_is_still_fitted :
  let df := generate_signals_df (Examples.falling 55) in
  ∃ models accuracies t',
    train_models Examples.quiet_world Examples.constant_classifier [("FALL"%string, df)] []
      = (inr (models, accuracies), t')
    ∧ remove_dups (prepare_data df).2 = [0%Z]
    ∧ is_Some (PyDict.get "FALL" models)
    ∧ ∃ a, PyDict.get "FALL" accuracies = Some a ∧ (a == 1)%Q.
Proof.
  eexists _, _, _. split; [vm_compute; reflexivity|].
  split; [by vm_compute|]. split; [by eexists|].
  eexists. split; [vm_compute; reflexivity|]. reflexivity.
Qed.

Section with_libraries.
Variable w : world.
Variable sk : sklearn.library.

(** One pass of the training loop: the symbol is skipped when its prepared
    set is empty; otherwise the split raises or a model and an accuracy in
    [0,1] are stored under the symbol. *)
Lemma train_symbol_returns symbol df models accuracies t models' accuracies' t' :
  train_symbol w sk (symbol, df) (models, accuracies) t = (inr (models', accuracies'), t') →
  ((prepare_data df).2 = [] ∧ models' = models ∧ accuracies' = accuracies)
  ∨ ((prepare_data df).2 ≠ []
     ∧ ∃ m a, models' = PyDict.set symbol m models
              ∧ accuracies' = PyDict.set symbol a accuracies
              ∧ (0 <= a <= 1)%Q).
Proof.
  unfold train_symbol. pose proof (prepare_data_lengths df) as Hlen.
  destruct (prepare_data df) as [X y]. simpl in Hlen |- *.
  destruct X as [|x X], y as [|y0 y]; try done; simpl.
  - run_M. intros [= <- <- _]. by left.
  - run_M.
    destruct (train_test_split sk (x :: X) (y0 :: y) t)
      as [[e|[[[X_train X_test] y_train] y_test]] t1] eqn:Hsplit; [done|].
    intros [= <- <- _]. right. split; [done|].
    apply train_test_split_returns in Hsplit as (_ & Hpos & _); [|done..].
    eexists _, _. repeat split; by apply accuracy_score_bounds.
Qed.

(** What the loop adds to the two dictionaries. *)
Lemma train_models_inv signals : ∀ acc t acc' t',
  for_each signals (train_symbol w sk) acc t = (inr acc', t') →
  (∀ s, is_Some (PyDict.get s acc'.1)
        ↔ is_Some (PyDict.get s acc.1)
          ∨ ∃ df, (s, df) ∈ signals ∧ (prepare_data df).2 ≠ [])
  ∧ (∀ s, is_Some (PyDict.get s acc'.2)
          ↔ is_Some (PyDict.get s acc.2)
            ∨ ∃ df, (s, df) ∈ signals ∧ (prepare_data df).2 ≠ [])
  ∧ (∀ s a, PyDict.get s acc'.2 = Some a →
            PyDict.get s acc.2 = Some a ∨ (0 <= a <= 1)%Q).
Proof.
  induction signals as [|[symbol df] signals IH]; intros acc t acc' t'; cbn [for_each].
  - run_M. intros [= <- _]. repeat split; try tauto.
    + intros [?|(df & []%elem_of_nil & _)]; done.
    + intros [?|(df & []%elem_of_nil & _)]; done.
  - unfold bind at 1.
    destruct (train_symbol w sk (symbol, df) acc t) as [[e|acc1] t1] eqn:Hstep; [done|].
    intros Hrest. apply IH in Hrest as (Hm & Ha & Hb).
    destruct acc as [models accuracies], acc1 as [models1 accuracies1].
    apply train_symbol_returns in Hstep
      as [(Hempty & -> & ->)|(Hne & m & a & -> & -> & Hbound)]; simpl in *.
    + repeat split.
      * rewrite Hm. intros [?|(df' & Hin & Hne)]; [by left|right].
        exists df'. split; [by right|done].
      * rewrite Hm. intros [?|(df' & [[= -> ->]|Hin]%elem_of_cons & Hne)]; [by left|done|].
        right. by exists df'.
      * rewrite Ha. intros [?|(df' & Hin & Hne)]; [by left|right].
        exists df'. split; [by right|done].
      * rewrite Ha. intros [?|(df' & [[= -> ->]|Hin]%elem_of_cons & Hne)]; [by left|done|].
        right. by exists df'.
      * done.
    + repeat split.
      * rewrite Hm, get_set. intros [Hs|(df' & Hin & Hne')].
        -- case_decide as Hk; [subst|by left]. right. exists df. split; [left|done].
        -- right. exists df'. split; [by right|done].
      * rewrite Hm, get_set. intros [?|(df' & [[= -> ->]|Hin]%elem_of_cons & Hne')].
        -- left. by case_decide.
        -- left. by rewrite decide_True.
        -- right. by exists df'.
      * rewrite Ha, get_set. intros [Hs|(df' & Hin & Hne')].
        -- case_decide as Hk; [subst|by left]. right. exists df. split; [left|done].
        -- right. exists df'. split; [by right|done].
      * rewrite Ha, get_set. intros [?|(df' & [[= -> ->]|Hin]%elem_of_cons & Hne')].
        -- left. by case_decide.
        -- left. by rewrite decide_True.
        -- right. by exists df'.
      * intros s a' Hget. apply Hb in Hget as [Hget|?]; [|by right].
        rewrite get_set in Hget. case_decide; [|by left].
        injection Hget as <-. by right.
Qed.

(** What [train_models] has recorded when it returns: a symbol whose
    prepared label set is empty has no model and no accuracy (it was
    skipped); a symbol whose prepared label set is not empty has both,
    whatever the number of classes in it; and every recorded accuracy lies
    in [0,1]. *)
Lemma train_models_records (signals : PyDict.dict (list SignalRow))
    (t t' : trace) (models : PyDict.dict (sklearn.model sk)) (accuracies : PyDict.dict Q) :
  NoDup (PyDict.keys signals) →
  train_models w sk signals t = (inr (models, accuracies), t') →
  (∀ s df, PyDict.get s signals = Some df → (prepare_data df).2 = [] →
           PyDict.get s models = None ∧ PyDict.get s accuracies = None)
  ∧ (∀ s df, PyDict.get s signals = Some df → (prepare_data df).2 ≠ [] →
             is_Some (PyDict.get s models) ∧ is_Some (PyDict.get s accuracies))
  ∧ (∀ s a, PyDict.get s accuracies = Some a → (0 <= a <= 1)%Q).
Proof.
  intros Hnd (Hm & Ha & Hb)%train_models_inv. simpl in *. repeat split.
  - apply eq_None_not_Some. rewrite Hm.
    intros [[? [=]]|(df' & Hin & Hne)].
    apply (elem_of_get _ _ _ Hnd) in Hin. congruence.
  - apply eq_None_not_Some. rewrite Ha.
    intros [[? [=]]|(df' & Hin & Hne)].
    apply (elem_of_get _ _ _ Hnd) in Hin. congruence.
  - apply Hm. right. exists df. split; [by apply get_Some_elem_of|done].
  - apply Ha. right. exists df. split; [by apply get_Some_elem_of|done].
  - by destruct (Hb s a H) as [[=]|[? ?]].
  - by destruct (Hb s a H) as [[=]|[? ?]].
Qed.

End with_libraries.


End trainer.

(** ** The series fetcher *)

(** Case analysis on membership in an explicit list of events. *)
Ltac elem_cases H :=
  set_unfold in H;
  repeat match type of H with _ ∨ _ => destruct H as [H|H] end;
  simplify_eq; try done.

Section fetcher.
Import yfinance Py DataFetcher.
Variable w : world.

Lemma attempt_spec symbol period t :
  ∃ r evs, attempt w symbol period t = (inr r, t ++ evs)
    ∧ Forall Spec.fetch_event evs
    ∧ (∀ s p x, EvHistory s p x ∈ evs → s = symbol ∧ p = period)
    ∧ (Spec.history_requests evs = [] ∨ Spec.history_requests evs = [(symbol, period)])
    ∧ match r with
      | Some hist => hist ≠ [] ∧ EvHistory symbol period (inr hist) ∈ evs
      | None => ∀ s, ¬ Spec.yielded s evs
      end
    ∧ (∀ e, rate_limited e = true →
            EvInfo symbol (inl e) ∈ evs ∨ EvHistory symbol period (inl e) ∈ evs →
            r = None ∧ last evs = Some (EvSleep 5)).
Proof.
  unfold attempt, check_info. run_M.
  repeat (case_match; simplify_eq/=); try case_bool_decide; simplify_eq/=.
  all: rewrite <- ?app_assoc; simpl; eexists _, _; (split; [reflexivity|]).
  all: split; [repeat constructor|].
  all: split; [by intros s p x Hin; elem_cases Hin|].
  all: split; [simpl; auto|].
  all: split; [first [split; [done|set_solver]
                     |by intros s (p & h & Hin & Hne); elem_cases Hin]|].
  all: intros e' Hrl [Hin|Hin]; elem_cases Hin; try congruence.
  all: by split.
Qed.

Lemma yielded_app s t1 t2 :
  Spec.yielded s (t1 ++ t2) ↔ Spec.yielded s t1 ∨ Spec.yielded s t2.
Proof.
  unfold Spec.yielded. split.
  - intros (p & h & [Hin|Hin]%elem_of_app & Hne); [left|right]; by exists p, h.
  - intros [(p & h & Hin & Hne)|(p & h & Hin & Hne)]; exists p, h;
      (split; [apply elem_of_app; auto|done]).
Qed.

Lemma history_requests_app t1 t2 :
  Spec.history_requests (t1 ++ t2) = Spec.history_requests t1 ++ Spec.history_requests t2.
Proof. apply omap_app. Qed.

(** The period loop: it never raises, asks for each period of the list at
    most once and in order, and stops at the first non-empty series. *)
Lemma for_periods_spec symbol periods : ∀ t,
  ∃ r evs, for_periods w symbol periods t = (inr r, t ++ evs)
    ∧ Forall Spec.fetch_event evs
    ∧ (∀ s p x, EvHistory s p x ∈ evs → s = symbol)
    ∧ Spec.history_requests evs `sublist_of` (pair symbol <$> periods)
    ∧ match r with
      | Some hist => hist ≠ [] ∧ Spec.yielded symbol evs
      | None => ∀ s, ¬ Spec.yielded s evs
      end.
Proof.
  induction periods as [|period rest IH]; intros t; cbn [for_periods].
  - exists None, []. rewrite app_nil_r. repeat split; try done.
    + by intros s p x ?%elem_of_nil.
    + by intros s (p & h & ?%elem_of_nil & _).
  - destruct (attempt_spec symbol period t) as (r & evs & Hrun & Hev & Hsym & Hreq & Hr & _).
    unfold mbind, M_bind, bind. rewrite Hrun. destruct r as [hist|].
    + exists (Some hist), evs. destruct Hr as [Hne Hin]. repeat split; try done.
      * intros s p x Hx. by apply Hsym in Hx as [-> _].
      * destruct Hreq as [->| ->]; [apply sublist_nil_l|].
        cbn [fmap list_fmap]. apply sublist_skip, sublist_nil_l.
      * by exists period, hist.
    + destruct (IH (t ++ evs)) as (r' & evs' & Hrun' & Hev' & Hsym' & Hreq' & Hr').
      exists r', (evs ++ evs'). rewrite app_assoc. repeat split; try done.
      * by apply Forall_app.
      * intros s p x [Hx|Hx]%elem_of_app; [by apply Hsym in Hx as [-> _]|by eapply Hsym'].
      * rewrite history_requests_app. cbn [fmap list_fmap].
        destruct Hreq as [->| ->]; simpl; [by apply sublist_cons|by apply sublist_skip].
      * destruct r' as [hist|].
        -- destruct Hr' as [Hne Hy]. split; [done|]. apply yielded_app. by right.
        -- intros s [Hy|Hy]%yielded_app; [by eapply Hr|by eapply Hr'].
Qed.

Lemma fetch_symbol_spec period i symbol data t evs0 :
  Spec.fetch_inv data evs0 →
  ∃ data' evs, fetch_symbol w period (i, symbol) data t = (inr data', t ++ evs)
    ∧ Forall Spec.fetch_event evs
    ∧ Spec.fetch_inv data' (evs0 ++ evs).
Proof.
  intros [Hdom Hne]. unfold fetch_symbol.
  set (pause := if 0 <? i then sleep 2 else ret ()).
  assert (∃ evp, pause t = (inr (), t ++ evp) ∧ Forall Spec.fetch_event evp
                 ∧ ∀ s, ¬ Spec.yielded s evp) as (evp & Hp & Hevp & Hyp).
  { unfold pause. destruct (0 <? i); run_M.
    - exists [EvSleep 2]. repeat split; [by repeat constructor|].
      intros s (p & h & Hin & _). by elem_cases Hin.
    - exists []. rewrite app_nil_r. repeat split; [done|].
      by intros s (p & h & ?%elem_of_nil & _). }
  destruct (for_periods_spec symbol (periods_to_try period) (t ++ evp))
    as (r & evs & Hrun & Hev & Hsym & _ & Hr).
  unfold mbind, M_bind, bind. rewrite Hp, Hrun. destruct r as [hist|].
  - destruct Hr as [Hhist Hy]. run_M.
    exists (PyDict.set symbol hist data), (evp ++ evs). rewrite app_assoc.
    repeat split.
    + by apply Forall_app.
    + rewrite get_set. case_decide as Hs.
      * subst. intros _. rewrite !yielded_app. auto.
      * intros Hd%Hdom. apply yielded_app. by left.
    + rewrite get_set. case_decide as Hs; [done|].
      rewrite !yielded_app. intros [Hy'|[Hy'|Hy']]; [by apply Hdom|by apply Hyp in Hy'|].
      destruct Hy' as (p & h & Hin & _). by apply Hsym in Hin.
    + intros s h [[-> ->]|Hin]%elem_of_set; [done|by eapply Hne].
  - run_M. eexists data, (evp ++ evs ++ [_]). rewrite !app_assoc.
    repeat split.
    + rewrite <- app_assoc. apply Forall_app. split; [done|].
      apply Forall_app. split; [done|]. by repeat constructor.
    + intros Hd%Hdom. rewrite <- !app_assoc. apply yielded_app. by left.
    + rewrite <- !app_assoc, !yielded_app.
      intros [Hy'|[Hy'|[Hy'|Hy']]]; [by apply Hdom|by apply Hyp in Hy'|by apply Hr in Hy'|].
      destruct Hy' as (p & h & Hin & _). by elem_cases Hin.
    + apply Hne.
Qed.

Lemma fetch_loop_spec period (symbols : list (nat * string)) : ∀ data t evs0,
  Spec.fetch_inv data evs0 →
  ∃ data' evs, for_each symbols (fetch_symbol w period) data t = (inr data', t ++ evs)
    ∧ Forall Spec.fetch_event evs
    ∧ Spec.fetch_inv data' (evs0 ++ evs).
Proof.
  induction symbols as [|[i symbol] symbols IH]; intros data t evs0 Hinv; cbn [for_each].
  - exists data, []. rewrite !app_nil_r. split; [done|]. split; [done|]. exact Hinv.
  - destruct (fetch_symbol_spec period i symbol data t evs0 Hinv)
      as (data1 & evs1 & Hrun1 & Hev1 & Hinv1).
    destruct (IH data1 (t ++ evs1) (evs0 ++ evs1) Hinv1) as (data2 & evs2 & Hrun2 & Hev2 & Hinv2).
    exists data2, (evs1 ++ evs2). unfold bind. rewrite Hrun1, Hrun2, !app_assoc.
    split; [done|]. split; [by apply Forall_app|]. exact Hinv2.
Qed.

Lemma fetch_data_spec symbols period t :
  ∃ data evs, fetch_data w symbols period t = (inr data, t ++ evs)
    ∧ Forall Spec.fetch_event evs
    ∧ Spec.fetch_inv data evs.
Proof.
  unfold fetch_data.
  destruct (fetch_loop_spec period (imap pair symbols) [] t [])
    as (data & evs & Hrun & Hev & Hinv).
  { split; [|by intros s h ?%elem_of_nil]. intros s. simpl. split; [by intros [? [=]]|].
    by intros (p & h & ?%elem_of_nil & _). }
  simpl in Hinv. unfold mbind, M_bind, bind at 1. rewrite Hrun.
  destruct data as [|entry data]; run_M; simpl.
  - eexists [], (evs ++ [_]). rewrite app_assoc. repeat split.
    + apply Forall_app. split; [done|]. by repeat constructor.
    + by intros [? [=]].
    + intros [Hy|Hy]%yielded_app; [by apply Hinv|].
      destruct Hy as (p & h & Hin & _). by elem_cases Hin.
    + by intros s h ?%elem_of_nil.
  - by exists (entry :: data), evs.
Qed.

End fetcher.

Section fetcher2.
Import yfinance Py DataFetcher.

(** C6.  Whatever the provider answers, [fetch_data] returns a mapping
    (no exception leaves it); the mapping has a key for a symbol exactly
    when some history request for that symbol returned a non-empty series;
    a symbol for which none did is absent; and no stored series is empty. *)
Theorem fetch_data_keys_are_the_symbols_that_yielded (w : world)
    (symbols : list string) (period : string) (t : trace) :
  ∃ data evs, fetch_data w symbols period t = (inr data, t ++ evs)
    ∧ (∀ s, is_Some (PyDict.get s data) ↔ Spec.yielded s evs)
    ∧ (∀ s, ¬ Spec.yielded s evs → PyDict.get s data = None)
    ∧ (∀ s hist, PyDict.get s data = Some hist → hist ≠ []).
Proof.
  destruct (fetch_data_spec w symbols period t) as (data & evs & Hrun & _ & Hdom & Hne).
  exists data, evs. split; [done|]. split; [done|]. split.
  - intros s Hy. apply eq_None_not_Some. by rewrite Hdom.
  - intros s hist Hget%get_Some_elem_of. by eapply Hne.
Qed.

(** C2, at a failing input.  The provider throttles the history request
    for "6mo" and would answer the next one.  The fetcher logs "Rate
    limited. Waiting 5 seconds before retry...", sleeps 5 seconds, and its
    next request is for "3mo": "6mo" is requested once and never retried,
    against the claim and against the fetcher's own log line. *)
Lemma rate_limited_period_is_not_retried :
  ∃ data t,
    fetch_data Examples.rate_limited_once ["AAA"]%string "6mo" [] = (inr data, t)
    ∧ rate_limited (Exception "429 Too Many Requests") = true
    ∧ Spec.history_requests t = [("AAA", "6mo"); ("AAA", "3mo")]%string
    ∧ t !! 3 = Some (EvHistory "AAA" "6mo" (inl (Exception "429 Too Many Requests")))
    ∧ t !! 6 = Some (EvSleep 5)
    ∧ t !! 10 = Some (EvHistory "AAA" "3mo" (inr (Examples.rising 60))).
Proof. eexists _, _. split; [vm_compute; reflexivity|]. by vm_compute. Qed.



End fetcher2.

(** ** Reporting and the orchestrator *)

Section reporting.
Import yfinance Py TradingStrategy.
Variable w : world.

Lemma try_except_never_raises {A} (body : M A) (handler : exn → M A) :
  (∀ e, Spec.never_raises (handler e)) → Spec.never_raises (try_except body handler).
Proof.
  intros Hh t. unfold try_except. destruct (body t) as [[e|a] t'].
  - apply Hh.
  - by exists a, t'.
Qed.

Lemma log_never_raises lvl msg : Spec.never_raises (log lvl msg).
Proof. intros t. by eexists _, _. Qed.

(** The Sheets client is only there when the credentials file exists and
    every step of the connection succeeded. *)
Lemma sheets_init_spec credentials_file t :
  ∃ sheet evs, GoogleSheetsLogger.init w credentials_file t = (inr sheet, t ++ evs)
    ∧ (sheet = None
       ∨ credentials_file ≠ ""
         ∧ evs = [EvPathExists credentials_file true;
                  EvCredentials credentials_file (inr ());
                  EvAuthorize (inr ());
                  EvOpen "AlgoTradingSystem" (inr ())])
    ∧ (credentials_file = ""
       ∨ EvPathExists credentials_file false ∈ evs
       ∨ (∃ e, EvCredentials credentials_file (inl e) ∈ evs
               ∨ EvAuthorize (inl e) ∈ evs
               ∨ EvOpen "AlgoTradingSystem" (inl e) ∈ evs) →
       sheet = None).
Proof.
  unfold GoogleSheetsLogger.init. run_M.
  repeat (case_match; simplify_eq/=); try case_bool_decide; simplify_eq/=.
  all: rewrite <- ?app_assoc; simpl; eexists _, _; (split; [reflexivity|]).
  all: try (split; [by left|done]).
  destruct (os_path_exists w t credentials_file); [|done].
  destruct u, u0, u1. split; [by right|].
  intros [?|[Hin|(e & [Hin|[Hin|Hin]])]]; [done|by elem_cases Hin..].
Qed.

Lemma log_trades_never_raises sheet signals :
  Spec.never_raises (GoogleSheetsLogger.log_trades w sheet signals).
Proof.
  unfold GoogleSheetsLogger.log_trades. case_bool_decide.
  - apply log_never_raises.
  - apply try_except_never_raises. intros e. apply log_never_raises.
Qed.

Lemma log_portfolio_never_raises sheet signals accuracies :
  Spec.never_raises (GoogleSheetsLogger.log_portfolio w sheet signals accuracies).
Proof.
  unfold GoogleSheetsLogger.log_portfolio. case_bool_decide.
  - apply log_never_raises.
  - apply try_except_never_raises. intros e. apply log_never_raises.
Qed.

Lemma send_alert_never_raises self message :
  Spec.never_raises (TelegramNotifier.send_alert w self message).
Proof.
  unfold TelegramNotifier.send_alert. case_match.
  - apply log_never_raises.
  - apply try_except_never_raises. intros e. apply log_never_raises.
Qed.

(** With token and chat id configured the POST is made, whatever comes
    back; without them only a warning is logged. *)
Lemma send_alert_spec self message t :
  if TelegramNotifier.truthy (TelegramNotifier.base_url self)
     && TelegramNotifier.truthy (TelegramNotifier.chat_id self)
  then ∃ r l, TelegramNotifier.send_alert w self message t
              = (inr (), t ++ [EvPost (default "" (TelegramNotifier.base_url self))
                                      (default "" (TelegramNotifier.chat_id self))
                                      message r; l])
  else TelegramNotifier.send_alert w self message t
       = (inr (), t ++ [EvLog WARNING "Telegram token or chat id not provided - skipping alert."]).
Proof.
  unfold TelegramNotifier.send_alert.
  destruct (TelegramNotifier.truthy (TelegramNotifier.base_url self)),
           (TelegramNotifier.truthy (TelegramNotifier.chat_id self)); simpl; try done.
  run_M. repeat (case_match; simplify_eq/=); rewrite <- ?app_assoc; simpl; by eexists _, _.
Qed.


Lemma iloc_last_nonempty (df : list SignalRow) t :
  df ≠ [] → ∃ r, GoogleSheetsLogger.iloc_last df t = (inr r, t).
Proof.
  intros Hne. unfold GoogleSheetsLogger.iloc_last.
  destruct (last df) as [r|] eqn:Hlast; [by exists r|].
  by apply last_None in Hlast.
Qed.

(** Building the alert text reads no remote service: on non-empty frames
    it returns the same text from every trace and leaves the trace as it
    is. *)
Lemma alert_text_pure signals accuracies :
  Forall (λ entry : string * list SignalRow, entry.2 ≠ []) signals →
  ∃ msg, ∀ t, TradingSystem.alert_text w signals accuracies t = (inr msg, t).
Proof.
  unfold TradingSystem.alert_text. intros Hne.
  generalize ("*Trading System Update*" +:+ TradingSystem.nl +:+ TradingSystem.nl).
  induction Hne as [|[symbol df] signals Hdf _ IH]; intros msg0; cbn [for_each].
  - by exists msg0.
  - simpl in Hdf. unfold bind at 1. run_M.
    destruct (last df) as [r|] eqn:Hlast; [|by apply last_None in Hlast].
    unfold GoogleSheetsLogger.iloc_last. rewrite Hlast. run_M. apply IH.
Qed.

Lemma report_spec self signals accuracies t :
  TradingSystem.sheets_logger self = None →
  Forall (λ entry : string * list SignalRow, entry.2 ≠ []) signals →
  ∃ msg tg,
    (∀ t', TradingSystem.alert_text w signals accuracies t' = (inr msg, t'))
    ∧ TradingSystem.report w self signals accuracies t
      = (inr TradingSystem.SUCCESS,
         t ++ [EvLog INFO "Sheets client not initialized - skipping trade logging.";
               EvLog INFO "Sheets client not initialized - skipping portfolio logging."]
           ++ tg ++ [EvLog INFO "Trading system execution completed"])
    ∧ let notifier := TradingSystem.telegram_notifier self in
      if TelegramNotifier.truthy (TelegramNotifier.base_url notifier)
         && TelegramNotifier.truthy (TelegramNotifier.chat_id notifier)
      then ∃ r l, tg = [EvPost (default "" (TelegramNotifier.base_url notifier))
                               (default "" (TelegramNotifier.chat_id notifier)) msg r; l]
      else tg = [EvLog WARNING "Telegram token or chat id not provided - skipping alert."].
Proof.
  intros Hsheet Hne. destruct (alert_text_pure signals accuracies Hne) as [msg Hmsg].
  exists msg. unfold TradingSystem.report, GoogleSheetsLogger.log_trades,
    GoogleSheetsLogger.log_portfolio. rewrite Hsheet. simpl.
  unfold mbind, M_bind, bind, log, emit. rewrite Hmsg.
  pose proof (send_alert_spec (TradingSystem.telegram_notifier self) msg
    ((t ++ [EvLog INFO "Sheets client not initialized - skipping trade logging."])
       ++ [EvLog INFO "Sheets client not initialized - skipping portfolio logging."])) as Hsend.
  destruct (TelegramNotifier.truthy _ && TelegramNotifier.truthy _).
  - destruct Hsend as (r & l & ->). eexists [_; l]. split; [done|]. split.
    + unfold mret, M_ret, ret. by rewrite <- !app_assoc.
    + by exists r, l.
  - rewrite Hsend. eexists [_]. split; [done|]. split; [|done].
    unfold mret, M_ret, ret. by rewrite <- !app_assoc.
Qed.

(** The generated frames are as long as the fetched ones. *)
Lemma generate_signals_spec (data : PyDict.dict (list Bar)) t :
  ∃ signals evs, generate_signals data t = (inr signals, t ++ evs)
    ∧ ∀ s df', (s, df') ∈ signals →
               ∃ df, (s, df) ∈ data ∧ df' = generate_signals_df df.
Proof.
  unfold generate_signals.
  assert (∀ acc t, ∃ signals evs,
    for_each data
      (λ '(symbol, df) signals,
         log INFO ("Signals generated for " +:+ symbol);;
         mret (PyDict.set symbol (generate_signals_df df) signals)) acc t
    = (inr signals, t ++ evs)
    ∧ ∀ s df', (s, df') ∈ signals →
        (s, df') ∈ acc ∨ ∃ df, (s, df) ∈ data ∧ df' = generate_signals_df df) as Hgen.
  { induction data as [|[symbol df] data IH]; intros acc t0; cbn [for_each].
    - exists acc, []. rewrite app_nil_r. split; [done|]. auto.
    - unfold bind at 1. run_M.
      destruct (IH (PyDict.set symbol (generate_signals_df df) acc)
                   (t0 ++ [EvLog INFO ("Signals generated for " +:+ symbol)]))
        as (signals & evs & -> & Hin).
      eexists signals, (_ :: evs). split; [by rewrite <- app_assoc|].
      intros s df' [[[-> ->]|?]%elem_of_set|(df0 & ? & ->)]%Hin; [|by left|].
      + right. exists df. split; [left|done].
      + right. exists df0. split; [by right|done]. }
  destruct (Hgen [] t) as (signals & evs & Hrun & Hin).
  exists signals, evs. split; [done|].
  intros s df' [[]%elem_of_nil|?]%Hin. done.
Qed.

End reporting.

Section orchestrator.
Import yfinance Py TradingStrategy TradingSystem.

(** C7.  When the fetcher returns an empty mapping, [run_system] logs
    the abort and returns without raising; everything the run did is the
    start-up log line, the fetcher's own events (logging, sleeping,
    provider calls) and the abort log line: no signals, no training, no
    spreadsheet call and no Telegram request. *)
Theorem run_aborts_when_nothing_is_fetched (w : world) (sk : sklearn.library)
    (self : system) (t t1 : trace) :
  DataFetcher.fetch_data w (sys_symbols self) "6mo"
    (t ++ [EvLog INFO "Starting trading system execution"]) = (inr [], t1) →
  run_system w sk self t
    = (inr ABORTED, t1 ++ [EvLog ERROR "No data fetched for any symbol. Aborting execution."])
  ∧ ∃ evs, t1 = t ++ EvLog INFO "Starting trading system execution" :: evs
           ∧ Forall Spec.fetch_event evs.
Proof.
  intros Hfetch. split.
  - unfold run_system. unfold mbind, M_bind, bind, log, emit. by rewrite Hfetch.
  - destruct (fetch_data_spec w (sys_symbols self) "6mo"
                (t ++ [EvLog INFO "Starting trading system execution"]))
      as (data & evs & Hrun & Hev & _).
    rewrite Hfetch in Hrun. injection Hrun as _ ->.
    exists evs. by rewrite <- app_assoc.
Qed.

Lemma run_aborts_when_nothing_is_fetched_witness :
  ∃ t1,
    run_system Examples.quiet_world Examples.constant_classifier Examples.unconfigured []
      = (inr ABORTED, t1 ++ [EvLog ERROR "No data fetched for any symbol. Aborting execution."])
    ∧ ∃ evs, t1 = [] ++ EvLog INFO "Starting trading system execution" :: evs
             ∧ Forall Spec.fetch_event evs.
Proof.
  eexists.
  apply (run_aborts_when_nothing_is_fetched Examples.quiet_world Examples.constant_classifier
           Examples.unconfigured []).
  vm_compute. reflexivity.
Defined.

(** C8, as stated, fails: the run does not always complete.  No Sheets
    client, Telegram token and chat id set; the provider serves 50 falling
    bars, which prepare a single training row.  The trainer raises, the
    run ends with that error before the reporting stage, no digest is
    posted and the completion line is not logged. *)
Lemma failed_training_ends_the_run_without_a_digest :
  sheets_logger Examples.telegram_only = None
  ∧ TelegramNotifier.truthy (TelegramNotifier.base_url (telegram_notifier Examples.telegram_only))
    && TelegramNotifier.truthy (TelegramNotifier.chat_id (telegram_notifier Examples.telegram_only))
    = true
  ∧ ∃ e t',
      run_system MoreExamples.fifty_bar_market Examples.constant_classifier
        Examples.telegram_only [] = (inl e, t')
      ∧ (∀ url chat text r, EvPost url chat text r ∉ t')
      ∧ EvLog INFO "Trading system execution completed" ∉ t'.
Proof.
  split; [done|]. split; [done|].
  eexists _, _. split; [vm_compute; reflexivity|].
  match goal with
  | |- (∀ url chat text r, _ ∉ ?l) ∧ _ =>
      assert (Forall (λ ev, match ev with
                            | EvPost _ _ _ _ => False
                            | EvLog INFO "Trading system execution completed" => False
                            | _ => True
                            end) l) as Hall by repeat constructor
  end.
  split.
  - intros url chat text r Hin. apply (proj1 (Forall_forall _ _) Hall _ Hin).
  - intros Hin. apply (proj1 (Forall_forall _ _) Hall _ Hin).
Qed.

(** C8, amended.  The Sheets client is left unset when the credentials
    path is empty, the file does not exist, or a step of the connection
    raises (it is only set after the four steps succeeded); without it
    both logging operations only log a line and return; none of the three
    reporting operations raises, whatever its endpoint answers; and a run
    without Sheets client that reaches the reporting stage (it has fetched
    data and the trainer has returned) completes with SUCCESS, after the
    Telegram request when token and chat id are set and a warning
    otherwise. *)
Theorem reporting_never_fails_the_run (w : world) (sk : sklearn.library) :
  (∀ credentials_file t,
     ∃ sheet evs, GoogleSheetsLogger.init w credentials_file t = (inr sheet, t ++ evs)
       ∧ (sheet = None
          ∨ credentials_file ≠ ""
            ∧ evs = [EvPathExists credentials_file true;
                     EvCredentials credentials_file (inr ());
                     EvAuthorize (inr ());
                     EvOpen "AlgoTradingSystem" (inr ())])
       ∧ (credentials_file = ""
          ∨ EvPathExists credentials_file false ∈ evs
          ∨ (∃ e, EvCredentials credentials_file (inl e) ∈ evs
                  ∨ EvAuthorize (inl e) ∈ evs
                  ∨ EvOpen "AlgoTradingSystem" (inl e) ∈ evs) →
          sheet = None))
  ∧ (∀ signals accuracies t,
       GoogleSheetsLogger.log_trades w None signals t
       = (inr (), t ++ [EvLog INFO "Sheets client not initialized - skipping trade logging."])
       ∧ GoogleSheetsLogger.log_portfolio w None signals accuracies t
         = (inr (), t ++ [EvLog INFO "Sheets client not initialized - skipping portfolio logging."]))
  ∧ (∀ sheet signals accuracies,
       Spec.never_raises (GoogleSheetsLogger.log_trades w sheet signals)
       ∧ Spec.never_raises (GoogleSheetsLogger.log_portfolio w sheet signals accuracies))
  ∧ (∀ notifier message, Spec.never_raises (TelegramNotifier.send_alert w notifier message))
  ∧ (∀ self t data t1 signals t2 models accuracies t3,
       sheets_logger self = None →
       DataFetcher.fetch_data w (sys_symbols self) "6mo"
         (t ++ [EvLog INFO "Starting trading system execution"]) = (inr data, t1) →
       data ≠ [] →
       generate_signals data
         (t1 ++ [EvLog INFO ("Successfully fetched data for symbols: "
                             +:+ repr_list (PyDict.keys data))]) = (inr signals, t2) →
       MLModel.train_models w sk signals t2 = (inr (models, accuracies), t3) →
       ∃ alert_msg tg,
         run_system w sk self t
         = (inr SUCCESS,
            t3 ++ [EvLog INFO "Sheets client not initialized - skipping trade logging.";
                   EvLog INFO "Sheets client not initialized - skipping portfolio logging."]
               ++ tg ++ [EvLog INFO "Trading system execution completed"])
         ∧ (∀ t', alert_text w signals accuracies t' = (inr alert_msg, t'))
         ∧ let notifier := telegram_notifier self in
           if TelegramNotifier.truthy (TelegramNotifier.base_url notifier)
              && TelegramNotifier.truthy (TelegramNotifier.chat_id notifier)
           then ∃ r l, tg = [EvPost (default "" (TelegramNotifier.base_url notifier))
                                    (default "" (TelegramNotifier.chat_id notifier))
                                    alert_msg r; l]
           else tg = [EvLog WARNING "Telegram token or chat id not provided - skipping alert."]).
Proof.
  split; [apply sheets_init_spec|]. split; [done|].
  split; [intros; split; [apply log_trades_never_raises|apply log_portfolio_never_raises]|].
  split; [apply send_alert_never_raises|].
  intros self t data t1 signals t2 models accuracies t3 Hsheet Hfetch Hdata Hgen Htrain.
  assert (Forall (λ entry : string * list SignalRow, entry.2 ≠ []) signals) as Hne.
  { destruct (fetch_data_spec w (sys_symbols self) "6mo"
                (t ++ [EvLog INFO "Starting trading system execution"]))
      as (data' & evs & Hrun & _ & _ & Hfull).
    rewrite Hfetch in Hrun. injection Hrun as <- _.
    destruct (generate_signals_spec data
                (t1 ++ [EvLog INFO ("Successfully fetched data for symbols: "
                                    +:+ repr_list (PyDict.keys data))]))
      as (signals' & evs' & Hrun' & Hin).
    rewrite Hgen in Hrun'. injection Hrun' as <- _.
    apply Forall_forall. intros [s df'] (df & Hdf & ->)%Hin. simpl.
    apply Hfull in Hdf. intros Hnil. apply Hdf.
    apply (f_equal length) in Hnil. rewrite generate_signals_df_length in Hnil.
    by destruct df. }
  destruct (report_spec w self signals accuracies t3 Hsheet Hne) as (msg & tg & Hmsg & Hrep & Htg).
  exists msg, tg. split; [|by split].
  unfold run_system. unfold mbind, M_bind, bind, log, emit at 1. rewrite Hfetch.
  destruct data as [|entry data]; [done|]. cbn [PyDict.is_empty].
  unfold emit. rewrite Hgen, Htrain. exact Hrep.
Qed.

Lemma reporting_never_fails_the_run_witness :
  ∃ t3 alert_msg r l,
    run_system Examples.rate_limited_once Examples.constant_classifier Examples.telegram_only []
    = (inr SUCCESS,
       t3 ++ [EvLog INFO "Sheets client not initialized - skipping trade logging.";
              EvLog INFO "Sheets client not initialized - skipping portfolio logging."]
          ++ [EvPost "https://api.telegram.org/botTOKEN/sendMessage" "42" alert_msg r; l]
          ++ [EvLog INFO "Trading system execution completed"]).
Proof.
  destruct (reporting_never_fails_the_run Examples.rate_limited_once Examples.constant_classifier)
    as (_ & _ & _ & _ & Hrun).
  edestruct (Hrun Examples.telegram_only []) as (msg & tg & Heq & _ & Htg).
  - reflexivity.
  - vm_compute. reflexivity.
  - done.
  - vm_compute. reflexivity.
  - vm_compute. reflexivity.
  - simpl in Htg. destruct Htg as (r & l & ->). eexists _, msg, r, l. exact Heq.
Defined.

End orchestrator.

(** * Further properties *)

(** ** More on the signal generator *)

Section strategy_more.
Import Float TradingStrategy yfinance.

(** The two generated columns, read back from the frame. *)
Lemma Signal_column df :
  Signal <$> generate_signals_df df = signal_column (calculate_indicators df).
Proof.
  apply list_eq. intros i. rewrite list_lookup_fmap.
  destruct (generate_signals_df df !! i) as [r|] eqn:Hr; simpl.
  - by apply generate_signals_df_lookup in Hr as (_ & -> & _).
  - apply lookup_ge_None in Hr. rewrite generate_signals_df_length in Hr.
    symmetry. apply lookup_ge_None.
    by rewrite signal_column_length, calculate_indicators_length.
Qed.

Lemma Position_column df :
  Position <$> generate_signals_df df
  = position_column (signal_column (calculate_indicators df)).
Proof.
  apply list_eq. intros i. rewrite list_lookup_fmap.
  destruct (generate_signals_df df !! i) as [r|] eqn:Hr; simpl.
  - by apply generate_signals_df_lookup in Hr as (_ & _ & ->).
  - apply lookup_ge_None in Hr. rewrite generate_signals_df_length in Hr.
    symmetry. apply lookup_ge_None.
    by rewrite position_column_length, signal_column_length, calculate_indicators_length.
Qed.

(** The position at a row, against the signals up to that row. *)
Lemma position_lookup df i r :
  generate_signals_df df !! i = Some r →
  (∃ j rj, j ≤ i ∧ generate_signals_df df !! j = Some rj ∧ Signal rj ≠ 0%Z
           ∧ Position r = Some (Signal rj)
           ∧ ∀ k rk, j < k ≤ i → generate_signals_df df !! k = Some rk → Signal rk = 0%Z)
  ∨ (Position r = None
     ∧ ∀ k rk, k ≤ i → generate_signals_df df !! k = Some rk → Signal rk = 0%Z).
Proof.
  intros Hr. pose proof Hr as (_ & _ & Hpos)%generate_signals_df_lookup.
  assert (∀ k rk s, generate_signals_df df !! k = Some rk →
            signal_column (calculate_indicators df) !! k = Some s → Signal rk = s) as Hsig.
  { intros k rk s (_ & Hs & _)%generate_signals_df_lookup Hs'. congruence. }
  apply ffill_from_spec in Hpos as [(j & s & Hj & Hs & Hne & -> & Hz)|[-> Hz]].
  - left. destruct (lookup_lt_is_Some_2 (generate_signals_df df) j) as [rj Hrj].
    { apply lookup_lt_Some in Hr. lia. }
    pose proof (Hsig _ _ _ Hrj Hs) as <-.
    exists j, rj. repeat split; [done..|].
    intros k rk Hk Hrk. eapply Hsig; [done|]. by apply Hz.
  - right. split; [done|]. intros k rk Hk Hrk. eapply Hsig; [done|]. by apply Hz.
Qed.

(** X7.  During the warm-up the strategy is silent: on every frame, a buy
    signal is never on a row before row 49 (the 50th), a sell signal and a
    position never on a row before row 14. *)
Theorem no_signal_during_warmup (df : list Bar) (i : nat) (r : SignalRow) :
  generate_signals_df df !! i = Some r →
  (Signal r = 1%Z → 49 ≤ i)
  ∧ (Signal r = (-1)%Z → 14 ≤ i)
  ∧ (is_Some (Position r) → 14 ≤ i).
Proof.
  intros Hr.
  assert (∀ k rk, generate_signals_df df !! k = Some rk →
            (Signal rk = 1%Z → 49 ≤ k) ∧ (Signal rk = (-1)%Z → 14 ≤ k)) as Hsig.
  { intros k rk Hrk. destruct (signal_cases df k rk Hrk) as (Hbuy & Hsell & _).
    pose proof Hrk as (Hir & _)%generate_signals_df_lookup.
    apply calculate_indicators_lookup in Hir as (_ & Hrsi & H20 & H50 & _).
    split.
    - intros [[_ (x & y & Hx & _)] _]%Hbuy.
      destruct (decide (49 ≤ k)); [done|]. assert (k < 49) as Hlt%H50 by lia.
      apply isnan_true in Hlt. unfold NaN in Hlt. congruence.
    - intros [(x & y & _ & Hy & _)|(x & y & _ & Hy & _)]%Hsell.
      + destruct (decide (14 ≤ k)); [done|]. assert (k < 14) as Hlt%Hrsi by lia.
        apply isnan_true in Hlt. unfold NaN in Hlt. congruence.
      + destruct (decide (49 ≤ k)); [lia|]. assert (k < 49) as Hlt%H50 by lia.
        apply isnan_true in Hlt. unfold NaN in Hlt. congruence. }
  split; [apply (Hsig i r Hr)|]. split; [apply (Hsig i r Hr)|].
  intros [p Hp].
  destruct (position_lookup df i r Hr) as [(j & rj & Hj & Hrj & Hne & _)|[HNone _]];
    [|congruence].
  destruct (Hsig j rj Hrj) as [Hb Hs].
  assert (Signal rj = (-1)%Z ∨ Signal rj = 0%Z ∨ Signal rj = 1%Z) as [?|[?|?]].
  { rewrite (signal_of_row _ _ _ Hrj). repeat case_match; auto. }
  - specialize (Hs ltac:(done)). lia.
  - done.
  - specialize (Hb ltac:(done)). lia.
Qed.

Lemma no_signal_during_warmup_witness :
  ∃ r, generate_signals_df (Examples.rising 20) !! 14 = Some r
  ∧ (Signal r = 1%Z → 49 ≤ 14)
  ∧ (Signal r = (-1)%Z → 14 ≤ 14)
  ∧ (is_Some (Position r) → 14 ≤ 14).
Proof.
  eexists. split; [vm_compute; reflexivity|].
  apply (no_signal_during_warmup (Examples.rising 20) 14). vm_compute. reflexivity.
Defined.

(** X8.  On every row of a generated frame: a non-zero signal is the
    position of its own row; a position is -1 or +1, never 0; and once a
    row has a position, every later row has one. *)
Theorem position_follows_signal_and_persists (df : list Bar) (i : nat) (r : SignalRow) :
  generate_signals_df df !! i = Some r →
  (Signal r ≠ 0%Z → Position r = Some (Signal r))
  ∧ (∀ p, Position r = Some p → p = (-1)%Z ∨ p = 1%Z)
  ∧ (is_Some (Position r) →
     ∀ k rk, i ≤ k → generate_signals_df df !! k = Some rk → is_Some (Position rk)).
Proof.
  intros Hr. split; [|split].
  - intros Hne.
    destruct (position_lookup df i r Hr) as [(j & rj & Hj & Hrj & _ & -> & Hz)|[_ Hz]].
    + destruct (decide (j = i)) as [->|Hji]; [congruence|].
      destruct Hne. apply (Hz i r); [lia|done].
    + destruct Hne. by apply (Hz i r).
  - intros p Hp.
    destruct (position_lookup df i r Hr) as [(j & rj & Hj & Hrj & Hne & Hpos & _)|[? _]];
      [|congruence].
    assert (p = Signal rj) as -> by congruence.
    rewrite (signal_of_row _ _ _ Hrj) in Hne |- *. repeat case_match; auto. done.
  - intros [p Hp] k rk Hk Hrk.
    destruct (position_lookup df i r Hr) as [(j & rj & Hj & Hrj & Hne & _)|[? _]];
      [|congruence].
    destruct (position_lookup df k rk Hrk) as [(j' & rj' & _ & _ & _ & -> & _)|[_ Hz]];
      [done|].
    destruct Hne. apply (Hz j rj); [lia|done].
Qed.

Lemma position_follows_signal_and_persists_witness :
  ∃ r, generate_signals_df (Examples.rising 20) !! 15 = Some r
  ∧ (Signal r ≠ 0%Z → Position r = Some (Signal r))
  ∧ (∀ p, Position r = Some p → p = (-1)%Z ∨ p = 1%Z)
  ∧ (is_Some (Position r) →
     ∀ k rk, 15 ≤ k → generate_signals_df (Examples.rising 20) !! k = Some rk
             → is_Some (Position rk)).
Proof.
  eexists. split; [vm_compute; reflexivity|].
  apply (position_follows_signal_and_persists (Examples.rising 20) 15).
  vm_compute. reflexivity.
Defined.

End strategy_more.

Section strategy_frames.
Import Float TradingStrategy yfinance Obs.

Lemma calculate_indicators_bars df : bar <$> calculate_indicators df = df.
Proof.
  apply list_eq. intros i. rewrite list_lookup_fmap.
  destruct (calculate_indicators df !! i) as [r|] eqn:Hr; simpl.
  - by apply calculate_indicators_lookup in Hr as (-> & _).
  - apply lookup_ge_None in Hr. rewrite calculate_indicators_length in Hr.
    symmetry. by apply lookup_ge_None.
Qed.

(** X5.  [generate_signals] keeps the fetched rows: the generated frame has
    as many rows as the price series, and its price columns are the
    series, in the same order. *)
Theorem generate_signals_df_keeps_rows (df : list Bar) :
  length (generate_signals_df df) = length df
  ∧ (bar ∘ indicators) <$> generate_signals_df df = df.
Proof.
  split; [apply generate_signals_df_length|].
  rewrite <- (calculate_indicators_bars df) at 2.
  apply list_eq. intros i. rewrite !list_lookup_fmap.
  destruct (generate_signals_df df !! i) as [r|] eqn:Hr; simpl.
  - apply generate_signals_df_lookup in Hr as (-> & _). done.
  - apply lookup_ge_None in Hr. rewrite generate_signals_df_length in Hr.
    rewrite (proj2 (lookup_ge_None (calculate_indicators df) i)); [done|].
    by rewrite calculate_indicators_length.
Qed.

Lemma indicator_values_closes df1 df2 :
  Close <$> df1 = Close <$> df2 →
  indicator_values <$> calculate_indicators df1
  = indicator_values <$> calculate_indicators df2.
Proof.
  intros Hclose.
  assert (length df1 = length df2) as Hlen.
  { apply (f_equal length) in Hclose. by rewrite !length_fmap in Hclose. }
  unfold calculate_indicators. rewrite Hclose.
  destruct (talib.MACD (Close <$> df2) 12 26 9) as [[macd macd_signal] hist].
  apply list_eq. intros i. rewrite !list_lookup_fmap, !list_lookup_imap.
  destruct (df1 !! i) as [b1|] eqn:H1, (df2 !! i) as [b2|] eqn:H2; simpl; try done.
  - apply lookup_lt_Some in H1. apply lookup_ge_None in H2. lia.
  - apply lookup_lt_Some in H2. apply lookup_ge_None in H1. lia.
Qed.

Lemma signal_column_values df1 df2 :
  indicator_values <$> df1 = indicator_values <$> df2 →
  signal_column df1 = signal_column df2.
Proof.
  intros Hval.
  assert (length df1 = length df2) as Hlen.
  { apply (f_equal length) in Hval. by rewrite !length_fmap in Hval. }
  apply list_eq. intros i.
  destruct (signal_column df1 !! i) as [s1|] eqn:H1.
  - apply signal_column_lookup in H1 as (r1 & Hr1 & ->).
    destruct (lookup_lt_is_Some_2 df2 i) as [r2 Hr2].
    { apply lookup_lt_Some in Hr1. lia. }
    destruct (lookup_lt_is_Some_2 (signal_column df2) i) as [s2 H2].
    { rewrite signal_column_length. by eapply lookup_lt_Some. }
    rewrite H2. apply signal_column_lookup in H2 as (r2' & Hr2' & ->).
    assert (r2' = r2) as -> by congruence.
    assert (indicator_values r1 = indicator_values r2) as Heq.
    { apply (f_equal (.!! i)) in Hval. rewrite !list_lookup_fmap, Hr1, Hr2 in Hval.
      simpl in Hval. congruence. }
    unfold indicator_values in Heq. injection Heq as Hrsi H20 H50 _ _.
    by rewrite Hrsi, H20, H50.
  - apply lookup_ge_None in H1. rewrite signal_column_length in H1.
    symmetry. apply lookup_ge_None. rewrite signal_column_length. lia.
Qed.

(** X6.  Indicators, signals and positions depend on the closing prices
    only: two series with the same [Close] column get the same indicator
    values, the same [Signal] column and the same [Position] column,
    whatever their other prices, volumes and dates are. *)
Theorem signals_depend_on_closes_only (df1 df2 : list Bar) :
  Close <$> df1 = Close <$> df2 →
  Signal <$> generate_signals_df df1 = Signal <$> generate_signals_df df2
  ∧ Position <$> generate_signals_df df1 = Position <$> generate_signals_df df2
  ∧ (indicator_values ∘ indicators) <$> generate_signals_df df1
    = (indicator_values ∘ indicators) <$> generate_signals_df df2.
Proof.
  intros Hclose. pose proof (indicator_values_closes df1 df2 Hclose) as Hval.
  rewrite !Signal_column, !Position_column, (signal_column_values _ _ Hval).
  split; [done|]. split; [done|].
  assert (∀ df, (indicator_values ∘ indicators) <$> generate_signals_df df
                = indicator_values <$> calculate_indicators df) as Hind.
  { intros df. apply list_eq. intros i. rewrite !list_lookup_fmap.
    destruct (generate_signals_df df !! i) as [r|] eqn:Hr; simpl.
    - by apply generate_signals_df_lookup in Hr as (-> & _).
    - apply lookup_ge_None in Hr. rewrite generate_signals_df_length in Hr.
      rewrite (proj2 (lookup_ge_None (calculate_indicators df) i)); [done|].
      by rewrite calculate_indicators_length. }
  by rewrite !Hind.
Qed.

Lemma signals_depend_on_closes_only_witness :
  Close <$> Examples.rising 60 = Close <$> MoreExamples.rising_other_prices 60
  ∧ Signal <$> generate_signals_df (Examples.rising 60)
    = Signal <$> generate_signals_df (MoreExamples.rising_other_prices 60)
  ∧ Position <$> generate_signals_df (Examples.rising 60)
    = Position <$> generate_signals_df (MoreExamples.rising_other_prices 60)
  ∧ (indicator_values ∘ indicators) <$> generate_signals_df (Examples.rising 60)
    = (indicator_values ∘ indicators)
        <$> generate_signals_df (MoreExamples.rising_other_prices 60).
Proof.
  split; [vm_compute; reflexivity|].
  apply (signals_depend_on_closes_only (Examples.rising 60)
           (MoreExamples.rising_other_prices 60)).
  vm_compute. reflexivity.
Defined.

End strategy_frames.

(** ** More on the label trainer *)

Section trainer_more.
Import Float yfinance Py TradingStrategy MLModel.

(** X9.  [prepare_data] labels every row, and keeps the rows in place:
    the label of a row is 1 when the next close is strictly higher and 0
    when it is not, and the last row, which has no next close, is
    labelled 0. *)
Theorem labels_compare_next_close (df : list SignalRow) (i : nat) (lr : LabelledRow) :
  add_target df !! i = Some lr →
  length (add_target df) = length df
  ∧ df !! i = Some (signal_row lr)
  ∧ (∀ next, df !! S i = Some next →
       Target lr = 1%Z ∧ (close_of (signal_row lr) < close_of next)%Q
       ∨ Target lr = 0%Z ∧ (close_of next <= close_of (signal_row lr))%Q)
  ∧ (S i = length df → Target lr = 0%Z).
Proof.
  intros Hlr. split; [apply add_target_length|].
  apply add_target_lookup in Hlr as [Hrow Hlabel]. split; [done|]. split.
  - intros next Hnext. rewrite Hnext in Hlabel. rewrite Hlabel.
    destruct (Qltb _ _) eqn:Hlt.
    + left. split; [done|]. by apply Qltb_lt.
    + right. split; [done|]. apply Qnot_lt_le. intros Hlt'%Qltb_lt. congruence.
  - intros Hlast. by rewrite (proj2 (lookup_ge_None df (S i))) in Hlabel by lia.
Qed.

Lemma labels_compare_next_close_witness :
  ∃ lr, add_target (generate_signals_df (Examples.rising 3)) !! 2 = Some lr
  ∧ length (add_target (generate_signals_df (Examples.rising 3)))
    = length (generate_signals_df (Examples.rising 3))
  ∧ generate_signals_df (Examples.rising 3) !! 2 = Some (signal_row lr)
  ∧ (∀ next, generate_signals_df (Examples.rising 3) !! 3 = Some next →
       Target lr = 1%Z ∧ (close_of (signal_row lr) < close_of next)%Q
       ∨ Target lr = 0%Z ∧ (close_of next <= close_of (signal_row lr))%Q)
  ∧ (3 = length (generate_signals_df (Examples.rising 3)) → Target lr = 0%Z).
Proof.
  eexists. split; [vm_compute; reflexivity|].
  apply (labels_compare_next_close (generate_signals_df (Examples.rising 3)) 2).
  vm_compute. reflexivity.
Defined.

Lemma has_na_generated df i r target :
  generate_signals_df df !! i = Some r →
  has_na (mkLabelledRow r target) = false ↔ 49 ≤ i ∧ is_Some (Position r).
Proof.
  intros (Hir & _)%generate_signals_df_lookup.
  apply calculate_indicators_lookup in Hir as (_ & Hrsi & H20 & H50 & Hmacd & Hsig).
  unfold has_na. simpl.
  rewrite !orb_false_iff, <- !not_true_iff_false, Hrsi, H20, H50, Hmacd, Hsig.
  rewrite bool_decide_eq_true, <- not_eq_None_Some. split.
  - intros (((((? & ?) & ?) & ?) & ?) & ?). split; [lia|done].
  - intros [? ?]. repeat split; (done || lia).
Qed.

(** X10.  What [dropna] keeps of a generated frame: exactly the rows from
    row 49 on that have a position.  (From row 49 on every indicator
    column is defined; before it the 50-day average is missing.) *)
Theorem prepared_rows_are_the_warm_rows_with_a_position (df : list Bar) (lr : LabelledRow) :
  lr ∈ dropna (add_target (generate_signals_df df))
  ↔ ∃ i, add_target (generate_signals_df df) !! i = Some lr
         ∧ 49 ≤ i ∧ is_Some (Position (signal_row lr)).
Proof.
  unfold dropna. rewrite list_elem_of_filter, list_elem_of_lookup. split.
  - intros [Hna [i Hi]]. exists i. split; [done|].
    pose proof Hi as [Hrow _]%add_target_lookup.
    destruct lr as [r target]. by apply (has_na_generated df i r target).
  - intros (i & Hi & Hwarm & Hpos). split; [|by exists i].
    pose proof Hi as [Hrow _]%add_target_lookup.
    destruct lr as [r target]. by apply (has_na_generated df i r target).
Qed.

Lemma prepare_data_nil df :
  (∀ lr, lr ∉ dropna (add_target df)) → prepare_data df = ([], []).
Proof.
  intros Hnone. unfold prepare_data.
  destruct (dropna (add_target df)) as [|lr l]; [done|].
  destruct (Hnone lr). left.
Qed.

(** X11.  A symbol with fewer than 50 rows, or whose frame never signals,
    prepares an empty training set: [train_models] logs the warning for
    it and leaves models and accuracies as they were. *)
Theorem short_or_flat_series_is_skipped (w : world) (sk : sklearn.library)
    (symbol : string) (df : list Bar)
    (models : PyDict.dict (sklearn.model sk)) (accuracies : PyDict.dict Q) (t : trace) :
  length df < 50 ∨ (∀ r, r ∈ generate_signals_df df → Signal r = 0%Z) →
  prepare_data (generate_signals_df df) = ([], [])
  ∧ train_symbol w sk (symbol, generate_signals_df df) (models, accuracies) t
    = (inr (models, accuracies),
       t ++ [EvLog WARNING ("Not enough data to train model for " +:+ symbol)]).
Proof.
  intros Hcase.
  assert (prepare_data (generate_signals_df df) = ([], [])) as Hnil.
  { apply prepare_data_nil. unfold dropna. intros lr [Hna Hin]%list_elem_of_filter.
    apply list_elem_of_lookup in Hin as [i Hi].
    apply add_target_lookup in Hi as [Hrow _]. destruct lr as [r target].
    simpl in Hrow.
    destruct (proj1 (has_na_generated df i r target Hrow)) as [Hwarm Hpos].
    { by destruct (has_na (mkLabelledRow r target)). }
    destruct Hcase as [Hshort|Hflat].
    - apply lookup_lt_Some in Hrow. rewrite generate_signals_df_length in Hrow. lia.
    - destruct (position_lookup df i _ Hrow) as [(j & rj & _ & Hrj & Hne & _)|[HNone _]].
      + destruct Hne. apply Hflat. by eapply list_elem_of_lookup_2.
      + rewrite HNone in Hpos. by destruct Hpos. }
  split; [done|]. unfold train_symbol. by rewrite Hnil.
Qed.

Lemma short_or_flat_series_is_skipped_witness :
  prepare_data (generate_signals_df (Examples.falling 30)) = ([], [])
  ∧ train_symbol Examples.quiet_world Examples.constant_classifier
      ("SHORT"%string, generate_signals_df (Examples.falling 30)) ([], []) []
    = (inr ([], []),
       [] ++ [EvLog WARNING ("Not enough data to train model for " +:+ "SHORT")]).
Proof.
  apply (short_or_flat_series_is_skipped Examples.quiet_world Examples.constant_classifier
           "SHORT" (Examples.falling 30) [] [] []).
  left. vm_compute. lia.
Defined.

Lemma n_test_lt n : 2 ≤ n → n_test_of n < n.
Proof.
  intros Hn. unfold n_test_of, Qceiling, Qfloor. simpl.
  change (Z.pos (10 * 1)) with 10%Z.
  pose proof (Z.div_mod (- (2 * Z.of_nat n)) 10 ltac:(lia)) as Hdm.
  pose proof (Z.mod_pos_bound (- (2 * Z.of_nat n)) 10 ltac:(lia)) as Hmod.
  lia.
Qed.

(** A prepared set of exactly one row makes [train_test_split] raise. *)
Lemma train_symbol_single_row (w : world) (sk : sklearn.library)
    (symbol : string) (df : list SignalRow)
    (acc : PyDict.dict (sklearn.model sk) * PyDict.dict Q) (t : trace) :
  length (prepare_data df).2 = 1 →
  ∃ e, train_symbol w sk (symbol, df) acc t = (inl e, t).
Proof.
  unfold train_symbol. pose proof (prepare_data_lengths df) as Hlen.
  destruct acc as [models accuracies], (prepare_data df) as [X y]. simpl in Hlen |- *.
  intros Hone. destruct y as [|y0 [|y1 y]]; try done.
  destruct X as [|x [|x1 X]]; try done. by eexists.
Qed.

(** X12.  Training a symbol raises exactly when its prepared set has one
    row: [train_test_split] with [test_size=0.2] then leaves an empty
    train set and raises [ValueError]; [train_models] does not catch it.
    (The classifier's [fit] and [predict] are total in this model.) *)
Theorem single_prepared_row_raises (w : world) (sk : sklearn.library)
    (symbol : string) (df : list SignalRow)
    (acc : PyDict.dict (sklearn.model sk) * PyDict.dict Q) (t : trace) :
  (∃ e, train_symbol w sk (symbol, df) acc t = (inl e, t))
  ↔ length (prepare_data df).2 = 1.
Proof.
  split; [|apply train_symbol_single_row].
  unfold train_symbol. pose proof (prepare_data_lengths df) as Hlen.
  destruct acc as [models accuracies], (prepare_data df) as [X y]. simpl in Hlen |- *.
  destruct X as [|x X], y as [|y0 y]; try done; simpl.
  - run_M. by intros [e [=]].
  - unfold train_test_split. cbn [length].
    destruct (decide (length X = 0)) as [HX|HX]; [simpl in Hlen; lia|].
    pose proof (n_test_lt (S (length X)) ltac:(lia)) as Hlt.
    destruct (S (length X) - n_test_of (S (length X)) =? 0) eqn:Hz.
    { apply Nat.eqb_eq in Hz. lia. }
    run_M. by intros [e [=]].
Qed.

End trainer_more.

(** ** More on the series fetcher *)

Section fetcher_more.
Import yfinance Py DataFetcher Obs.
Variable w : world.

Lemma sleeps_app t1 t2 : Obs.sleeps (t1 ++ t2) = Obs.sleeps t1 ++ Obs.sleeps t2.
Proof. apply omap_app. Qed.

(** One attempt, in more detail: [ticker.info] is asked once, first; its
    answer decides whether [ticker.history] is asked; the attempt pauses
    at most once, for 5 seconds; and a series that is returned is the
    answer of the attempt's last remote call. *)
Lemma attempt_detail symbol period t :
  ∃ r evs x, attempt w symbol period t = (inr r, t ++ evs)
    ∧ evs !! 1 = Some (EvInfo symbol x)
    ∧ Spec.history_requests evs
      = (if Obs.info_lets_through x then [(symbol, period)] else [])
    ∧ (Obs.sleeps evs = [] ∨ Obs.sleeps evs = [5])
    ∧ match r with
      | Some hist =>
          hist ≠ []
          ∧ ∃ pre l, evs = pre ++ [EvHistory symbol period (inr hist); l]
                     ∧ Spec.history_requests pre = []
      | None => ∀ s, ¬ Spec.yielded s evs
      end.
Proof.
  unfold attempt, check_info. run_M.
  repeat (case_match; simplify_eq/=); try case_bool_decide; simplify_eq/=.
  all: rewrite <- ?app_assoc; simpl; eexists _, _, _; (split; [reflexivity|]).
  all: split; [reflexivity|].
  all: split; [unfold Obs.info_lets_through;
               repeat match goal with H : _ = _ |- _ => rewrite H end; reflexivity|].
  all: split; [simpl; auto|].
  all: first [split; [done|]; by eexists [_; _; _], _
             |by intros s (p & h & Hin & Hne); elem_cases Hin].
Qed.

Lemma for_periods_detail symbol periods : ∀ t,
  ∃ r evs, for_periods w symbol periods t = (inr r, t ++ evs)
    ∧ length (Spec.history_requests evs) ≤ length periods
    ∧ list_sum (Obs.sleeps evs) ≤ 5 * length periods
    ∧ Forall (λ secs, secs = 5) (Obs.sleeps evs)
    ∧ match r with
      | Some hist =>
          hist ≠ []
          ∧ ∃ pre period l,
              period ∈ periods
              ∧ evs = pre ++ [EvHistory symbol period (inr hist); l]
              ∧ ∀ s, ¬ Spec.yielded s pre
      | None => ∀ s, ¬ Spec.yielded s evs
      end.
Proof.
  induction periods as [|period rest IH]; intros t; cbn [for_periods].
  - exists None, []. rewrite app_nil_r. repeat split; try done; simpl; try lia.
    by intros s (p & h & ?%elem_of_nil & _).
  - destruct (attempt_detail symbol period t)
      as (r & evs & x & Hrun & _ & Hreq & Hsleep & Hr).
    assert (length (Spec.history_requests evs) ≤ 1) as Hreq1.
    { rewrite Hreq. destruct (Obs.info_lets_through x); simpl; lia. }
    assert (list_sum (Obs.sleeps evs) ≤ 5 ∧ Forall (λ secs, secs = 5) (Obs.sleeps evs))
      as [Hsum Hfive].
    { destruct Hsleep as [-> | ->]; simpl; split; try lia; by repeat constructor. }
    unfold mbind, M_bind, bind. rewrite Hrun. destruct r as [hist|].
    + exists (Some hist), evs. destruct Hr as (Hne & pre & l & -> & Hpre).
      split; [done|]. cbn [length]. split; [lia|]. split; [lia|]. split; [done|].
      split; [done|]. exists pre, period, l. split; [left|]. split; [done|].
      intros s (p & h & Hin & _).
      assert ((s, p) ∈ Spec.history_requests pre) as Hreq'.
      { unfold Spec.history_requests. apply list_elem_of_omap. by eexists (EvHistory s p _). }
      rewrite Hpre in Hreq'. by apply elem_of_nil in Hreq'.
    + destruct (IH (t ++ evs)) as (r' & evs' & Hrun' & Hreq' & Hsum' & Hfive' & Hr').
      exists r', (evs ++ evs'). rewrite app_assoc. split; [done|].
      rewrite history_requests_app, sleeps_app, list_sum_app, !length_app. cbn [length].
      split; [lia|]. split; [lia|]. split; [by apply Forall_app|].
      destruct r' as [hist|]; [|by intros s [?%Hr|?%Hr']%yielded_app].
      destruct Hr' as (Hne & pre & p & l & Hp & -> & Hpre). split; [done|].
      exists (evs ++ pre), p, l. split; [by right|]. split; [by rewrite app_assoc|].
      by intros s [?%Hr|?%Hpre]%yielded_app.
Qed.

Lemma keys_set {V} (k : string) (v : V) (d : PyDict.dict V) :
  PyDict.keys (PyDict.set k v d)
  = if decide (k ∈ PyDict.keys d) then PyDict.keys d else PyDict.keys d ++ [k].
Proof.
  unfold PyDict.keys. induction d as [|[k0 v0] d IH]; simpl.
  - done.
  - destruct (decide (k0 = k)) as [->|Hne]; cbn [fmap list_fmap fst].
    + rewrite decide_True; [done|]. left.
    + rewrite IH. destruct (decide (k ∈ d.*1)) as [Hin|Hnotin].
      * rewrite decide_True; [done|]. by right.
      * rewrite decide_False; [done|]. by intros [->|?]%elem_of_cons.
Qed.

Lemma set_NoDup {V} (k : string) (v : V) (d : PyDict.dict V) :
  NoDup (PyDict.keys d) → NoDup (PyDict.keys (PyDict.set k v d)).
Proof.
  intros Hnd. rewrite keys_set. case_decide; [done|].
  apply NoDup_app. split; [done|]. split; [|apply NoDup_singleton].
  intros x Hx ->%list_elem_of_singleton. done.
Qed.

(** The body of the symbol loop, in more detail. *)
Lemma fetch_symbol_detail period i symbol data t :
  ∃ data' evs, fetch_symbol w period (i, symbol) data t = (inr data', t ++ evs)
    ∧ length (Spec.history_requests evs) ≤ 4
    ∧ (∃ fives, Obs.sleeps evs = (if 0 <? i then [2] else []) ++ fives
                ∧ Forall (λ secs, secs = 5) fives ∧ list_sum fives ≤ 20)
    ∧ (data' = data
       ∨ ∃ hist p, data' = PyDict.set symbol hist data
                   ∧ p ∈ periods_to_try period
                   ∧ EvHistory symbol p (inr hist) ∈ evs).
Proof.
  unfold fetch_symbol.
  set (first := if 0 <? i then [EvSleep 2] else []).
  assert ((if 0 <? i then sleep 2 else ret ()) t = (inr (), t ++ first)
          ∧ Spec.history_requests first = []
          ∧ Obs.sleeps first = if 0 <? i then [2] else []) as (Hp & Hp1 & Hp2).
  { unfold first. destruct (0 <? i); run_M; [done|]. by rewrite app_nil_r. }
  destruct (for_periods_detail symbol (periods_to_try period) (t ++ first))
    as (r & evs & Hrun & Hreq & Hsum & Hfive & Hr).
  unfold mbind, M_bind, bind. rewrite Hp, Hrun. cbn [periods_to_try length] in Hreq, Hsum.
  clearbody first. destruct r as [hist|]; run_M.
  - exists (PyDict.set symbol hist data), (first ++ evs).
    rewrite app_assoc. split; [done|].
    rewrite history_requests_app, sleeps_app, Hp1, Hp2. split; [simpl; lia|].
    split; [exists (Obs.sleeps evs); repeat split; [done|lia]|].
    right. destruct Hr as (_ & pre & p & l & Hin & -> & _). exists hist, p.
    split; [done|]. split; [done|].
    apply elem_of_app. right. apply elem_of_app. right. left.
  - eexists data, (first ++ evs ++ [_]).
    rewrite !app_assoc. split; [done|].
    rewrite <- !app_assoc, !history_requests_app, !sleeps_app, Hp1, Hp2. simpl.
    rewrite !app_nil_r. split; [lia|].
    split; [exists (Obs.sleeps evs); repeat split; [done|lia]|]. by left.
Qed.

Lemma filter_two_fives (l : list nat) :
  Forall (λ secs, secs = 5) l → filter (λ secs, secs = 2) l = [].
Proof.
  induction 1 as [|x l Hx _ IHl]; [done|].
  rewrite filter_cons_False by lia. exact IHl.
Qed.

Lemma fetch_loop_detail period (symbols : list (nat * string)) : ∀ data t evs0 done,
  provenance period done data evs0 →
  ∃ data' evs, for_each symbols (fetch_symbol w period) data t = (inr data', t ++ evs)
    ∧ provenance period (done ++ symbols.*2) data' (evs0 ++ evs)
    ∧ length (Spec.history_requests evs) ≤ 4 * length symbols
    ∧ Forall (λ secs, secs = 2 ∨ secs = 5) (Obs.sleeps evs)
    ∧ length (filter (λ secs, secs = 2) (Obs.sleeps evs))
      = length (filter (λ entry, 0 < entry.1) symbols)
    ∧ list_sum (Obs.sleeps evs)
      ≤ 20 * length symbols + 2 * length (filter (λ entry, 0 < entry.1) symbols).
Proof.
  induction symbols as [|[i symbol] symbols IH]; intros data t evs0 done Hinv; cbn [for_each].
  - exists data, []. rewrite !app_nil_r. simpl. repeat split; try done; apply Hinv.
  - destruct (fetch_symbol_detail period i symbol data t)
      as (data1 & evs1 & Hrun1 & Hreq1 & (fives & Hsl1 & Hfive1 & Hsum1) & Hdata1).
    assert (provenance period (done ++ [symbol]) data1 (evs0 ++ evs1)) as Hinv1.
    { destruct Hinv as (Hnd & Hkeys & Hprov).
      destruct Hdata1 as [->|(hist & p & -> & Hp & Hin)].
      - split; [done|]. split.
        + intros s Hs. apply elem_of_app. left. by apply Hkeys.
        + intros s h Hget. destruct (Hprov s h Hget) as (p & Hp & Hin).
          exists p. split; [done|]. apply elem_of_app. by left.
      - split; [by apply set_NoDup|]. split.
        + intros s. rewrite keys_set. case_decide.
          * intros Hs. apply elem_of_app. left. by apply Hkeys.
          * intros [Hs| ->%list_elem_of_singleton]%elem_of_app; apply elem_of_app;
              [left; by apply Hkeys|right; by apply list_elem_of_singleton].
        + intros s h. rewrite get_set. case_decide as Hs.
          * intros [= <-]. subst. exists p. split; [done|]. apply elem_of_app. by right.
          * intros Hget. destruct (Hprov s h Hget) as (p' & Hp' & Hin').
            exists p'. split; [done|]. apply elem_of_app. by left. }
    destruct (IH data1 (t ++ evs1) (evs0 ++ evs1) (done ++ [symbol]) Hinv1)
      as (data2 & evs2 & Hrun2 & Hinv2 & Hreq2 & Hsl2 & Hcnt2 & Hsum2).
    exists data2, (evs1 ++ evs2). unfold bind. rewrite Hrun1, Hrun2, !app_assoc.
    split; [done|]. split.
    { rewrite fmap_cons, cons_middle, app_assoc. by rewrite <- !app_assoc in Hinv2 |- *. }
    assert (length (filter (λ secs, secs = 2) (Obs.sleeps evs1)) = (if 0 <? i then 1 else 0)
            ∧ list_sum (Obs.sleeps evs1) ≤ 20 + (if 0 <? i then 2 else 0)
            ∧ Forall (λ secs, secs = 2 ∨ secs = 5) (Obs.sleeps evs1)) as (Hc1 & Hs1 & Hf1).
    { rewrite Hsl1, filter_app, length_app, list_sum_app, (filter_two_fives _ Hfive1).
      assert (Forall (λ secs, secs = 2 ∨ secs = 5) fives) as Hf.
      { eapply Forall_impl; [exact Hfive1|]. by right. }
      destruct (0 <? i); simpl; (split; [done|]); (split; [lia|]); [|done].
      apply Forall_cons. split; [by left|done]. }
    assert (length (filter (λ entry : nat * string, 0 < entry.1) ((i, symbol) :: symbols))
            = (if 0 <? i then 1 else 0)
              + length (filter (λ entry : nat * string, 0 < entry.1) symbols)) as Hfil.
    { destruct (Nat.ltb_spec 0 i) as [Hi|Hi].
      - by rewrite filter_cons_True by done.
      - by rewrite filter_cons_False by (simpl; lia). }
    rewrite history_requests_app, sleeps_app, filter_app, list_sum_app, !length_app, Hfil, Hc1.
    cbn [length]. split; [lia|]. split; [by apply Forall_app|]. split; [lia|].
    destruct (0 <? i); lia.
Qed.

Lemma filter_all {A} (P : A → Prop) `{∀ x, Decision (P x)} (l : list A) :
  Forall P l → filter P l = l.
Proof.
  induction 1 as [|x l Hx _ IHl]; [done|].
  rewrite filter_cons_True by done. by rewrite IHl.
Qed.

Lemma imap_pair_later_indices {A} (l : list A) :
  length (filter (λ entry : nat * A, 0 < entry.1) (imap pair l)) = length l - 1.
Proof.
  destruct l as [|x l]; [done|]. cbn [imap]. rewrite filter_cons_False by (simpl; lia).
  rewrite filter_all; [rewrite length_imap; simpl; lia|].
  apply Forall_lookup. intros i [j y]. rewrite list_lookup_imap.
  destruct (l !! i); simpl; [|done]. intros [= <- _]. simpl. lia.
Qed.

Lemma fetch_data_detail symbols period t :
  ∃ data evs, fetch_data w symbols period t = (inr data, t ++ evs)
    ∧ provenance period symbols data evs
    ∧ length (Spec.history_requests evs) ≤ 4 * length symbols
    ∧ Forall (λ secs, secs = 2 ∨ secs = 5) (Obs.sleeps evs)
    ∧ length (filter (λ secs, secs = 2) (Obs.sleeps evs)) = length symbols - 1
    ∧ list_sum (Obs.sleeps evs) ≤ 22 * length symbols.
Proof.
  unfold fetch_data.
  destruct (fetch_loop_detail period (imap pair symbols) [] t [] [])
    as (data & evs & Hrun & Hinv & Hreq & Hsl & Hcnt & Hsum).
  { split; [constructor|]. split; [by intros s ?%elem_of_nil|done]. }
  rewrite imap_pair_later_indices, length_imap in *.
  assert ((imap pair symbols).*2 = symbols) as Hsnd.
  { apply list_eq. intros i. rewrite list_lookup_fmap, list_lookup_imap.
    by destruct (symbols !! i). }
  simpl in Hinv. rewrite Hsnd in Hinv.
  unfold mbind, M_bind, bind at 1. rewrite Hrun.
  destruct data as [|entry data]; run_M; simpl.
  - eexists [], (evs ++ [_]). rewrite app_assoc. split; [done|].
    rewrite history_requests_app, sleeps_app. simpl. rewrite !app_nil_r.
    split; [|repeat split; (done || lia)].
    destruct Hinv as (? & ? & ?). split; [done|]. split; [done|]. by intros s h [=].
  - exists (entry :: data), evs. repeat split; try done; try apply Hinv. lia.
Qed.

End fetcher_more.

Section fetcher_extras.
Import yfinance Py DataFetcher.

(** X1.  Whatever the provider answers, [fetch_data] returns; the mapping
    has no key twice, its keys are among the requested symbols, and each
    stored series is what a history request for that symbol, with one of
    the four periods, returned. *)
Theorem fetched_series_come_from_the_provider (w : world) (symbols : list string)
    (period : string) (t : trace) :
  ∃ data evs, fetch_data w symbols period t = (inr data, t ++ evs)
    ∧ NoDup (PyDict.keys data)
    ∧ (∀ s, s ∈ PyDict.keys data → s ∈ symbols)
    ∧ (∀ s hist, PyDict.get s data = Some hist →
         ∃ p, p ∈ periods_to_try period ∧ EvHistory s p (inr hist) ∈ evs).
Proof.
  destruct (fetch_data_detail w symbols period t) as (data & evs & Hrun & Hprov & _).
  by exists data, evs.
Qed.

(** X2.  [fetch_data] makes at most four history requests per symbol;
    every pause is of 2 or of 5 seconds; there is one pause of 2 seconds
    between two symbols and none before the first; and the pauses add up
    to at most 22 seconds per symbol. *)
Theorem fetcher_requests_and_pauses_are_bounded (w : world) (symbols : list string)
    (period : string) (t : trace) :
  ∃ data evs, fetch_data w symbols period t = (inr data, t ++ evs)
    ∧ length (Spec.history_requests evs) ≤ 4 * length symbols
    ∧ Forall (λ secs, secs = 2 ∨ secs = 5) (Obs.sleeps evs)
    ∧ length (filter (λ secs, secs = 2) (Obs.sleeps evs)) = length symbols - 1
    ∧ list_sum (Obs.sleeps evs) ≤ 22 * length symbols.
Proof.
  destruct (fetch_data_detail w symbols period t) as (data & evs & Hrun & _ & Hrest).
  by exists data, evs.
Qed.

(** X3.  The period loop stops at the first non-empty series: when it
    returns a series, that series is not empty, the history request that
    returned it is the last request of the loop (one log line follows),
    and no request before it returned a non-empty series; when it returns
    none, no request did. *)
Theorem first_non_empty_series_ends_the_period_loop (w : world) (symbol : string)
    (periods : list string) (t : trace) :
  ∃ r evs, for_periods w symbol periods t = (inr r, t ++ evs)
    ∧ match r with
      | Some hist =>
          hist ≠ []
          ∧ ∃ pre period l,
              period ∈ periods
              ∧ evs = pre ++ [EvHistory symbol period (inr hist); l]
              ∧ ∀ s, ¬ Spec.yielded s pre
      | None => ∀ s, ¬ Spec.yielded s evs
      end.
Proof.
  destruct (for_periods_detail w symbol periods t) as (r & evs & Hrun & _ & _ & _ & Hr).
  by exists r, evs.
Qed.

(** X4.  One attempt reads [ticker.info] first, and its answer decides
    the rest: history is requested, once, when the answer is a non-empty
    dictionary or an error that is not a rate limit (the error is logged
    and the attempt goes on); after an empty dictionary or a rate-limit
    error no history is requested.  An attempt pauses at most once, for 5
    seconds. *)
Theorem info_answer_decides_the_history_request (w : world) (symbol period : string)
    (t : trace) :
  ∃ r evs x, attempt w symbol period t = (inr r, t ++ evs)
    ∧ evs !! 1 = Some (EvInfo symbol x)
    ∧ Spec.history_requests evs
      = (if Obs.info_lets_through x then [(symbol, period)] else [])
    ∧ (Obs.sleeps evs = [] ∨ Obs.sleeps evs = [5]).
Proof.
  destruct (attempt_detail w symbol period t) as (r & evs & x & Hrun & Hinfo & Hreq & Hsl & _).
  by exists r, evs, x.
Qed.

End fetcher_extras.

Section run_errors.
Import yfinance Py TradingStrategy MLModel TradingSystem.
Variable w : world.
Variable sk : sklearn.library.

Lemma set_fresh {V} (k : string) (v : V) (d : PyDict.dict V) :
  k ∉ PyDict.keys d → PyDict.set k v d = d ++ [(k, v)].
Proof.
  unfold PyDict.keys. induction d as [|[k0 v0] d IH]; simpl; [done|].
  intros [Hne Hk]%not_elem_of_cons. rewrite decide_False by done. by rewrite IH.
Qed.

(** On a mapping with distinct keys the generated mapping has one frame
    per fetched series, in the same order. *)
Lemma generate_signals_map (data : PyDict.dict (list Bar)) t :
  NoDup (PyDict.keys data) →
  ∃ evs, generate_signals data t
         = (inr (prod_map id generate_signals_df <$> data), t ++ evs)
         ∧ Forall Obs.is_log evs.
Proof.
  unfold generate_signals. intros Hnd.
  assert (∀ acc t0, (∀ k, k ∈ PyDict.keys data → k ∉ PyDict.keys acc) →
    ∃ evs, for_each data
      (λ '(symbol, df) signals,
         log INFO ("Signals generated for " +:+ symbol);;
         mret (PyDict.set symbol (generate_signals_df df) signals)) acc t0
    = (inr (acc ++ (prod_map id generate_signals_df <$> data)), t0 ++ evs)
    ∧ Forall Obs.is_log evs) as Hgen.
  { clear t. induction data as [|[symbol df] data IH]; intros acc t0 Hfresh; cbn [for_each].
    - exists []. by rewrite !app_nil_r.
    - unfold bind at 1. run_M.
      apply NoDup_cons in Hnd as [Hsym Hnd].
      rewrite set_fresh by (apply Hfresh; left).
      destruct (IH Hnd (acc ++ [(symbol, generate_signals_df df)])
                   (t0 ++ [EvLog INFO ("Signals generated for " +:+ symbol)]))
        as (evs & -> & Hlog).
      { intros k Hk. unfold PyDict.keys. rewrite fmap_app.
        intros [?|Heq%list_elem_of_singleton]%elem_of_app.
        - by apply (Hfresh k); [right|].
        - simpl in Heq. by subst. }
      eexists (_ :: evs). rewrite <- !app_assoc. split; [done|].
      by apply Forall_cons. }
  destruct (Hgen [] t) as (evs & Hrun & Hlog); [by intros k _ ?%elem_of_nil|].
  by exists evs.
Qed.

(** X18.  [generate_signals] turns a mapping without repeated keys into
    one frame per symbol, under the same keys in the same order, each the
    generated frame of the symbol's series; it returns, and writes log
    lines only. *)
Theorem signals_follow_the_fetched_mapping (data : PyDict.dict (list Bar)) (t : trace) :
  NoDup (PyDict.keys data) →
  ∃ signals evs, generate_signals data t = (inr signals, t ++ evs)
    ∧ PyDict.keys signals = PyDict.keys data
    ∧ PyDict.values signals = generate_signals_df <$> PyDict.values data
    ∧ Forall Obs.is_log evs.
Proof.
  intros Hnd. destruct (generate_signals_map data t Hnd) as (evs & Hrun & Hlog).
  exists (prod_map id generate_signals_df <$> data), evs. split; [done|].
  unfold PyDict.keys, PyDict.values. rewrite <- !list_fmap_compose.
  split; [|split; [|done]]; apply list_fmap_ext; by intros ? [? ?].
Qed.

Lemma signals_follow_the_fetched_mapping_witness :
  ∃ signals evs,
    generate_signals [("AAA"%string, Examples.rising 3); ("BBB"%string, Examples.falling 3)] []
    = (inr signals, [] ++ evs)
    ∧ PyDict.keys signals = ["AAA"; "BBB"]%string
    ∧ PyDict.values signals
      = generate_signals_df <$> [Examples.rising 3; Examples.falling 3]
    ∧ Forall Obs.is_log evs.
Proof.
  apply (signals_follow_the_fetched_mapping
           [("AAA"%string, Examples.rising 3); ("BBB"%string, Examples.falling 3)] []).
  apply (bool_decide_unpack _). by vm_compute.
Defined.

Lemma train_symbol_trace entry acc t :
  ∃ r evs, train_symbol w sk entry acc t = (r, t ++ evs) ∧ Forall Obs.is_log evs.
Proof.
  destruct entry as [symbol df], acc as [models accuracies]. unfold train_symbol.
  destruct (prepare_data df) as [X y]. case_match.
  - run_M. eexists _, [_]. by repeat constructor.
  - unfold train_test_split. case_match; run_M.
    + eexists _, []. by rewrite app_nil_r.
    + eexists _, [_]. by repeat constructor.
Qed.

Lemma train_models_raises signals : ∀ acc t,
  (∃ s df, (s, df) ∈ signals ∧ length (prepare_data df).2 = 1) →
  ∃ e evs, for_each signals (train_symbol w sk) acc t = (inl e, t ++ evs)
           ∧ Forall Obs.is_log evs.
Proof.
  induction signals as [|[symbol df] signals IH]; intros acc t (s & df' & Hin & Hone).
  { by apply elem_of_nil in Hin. }
  cbn [for_each]. unfold bind at 1.
  destruct (train_symbol_trace (symbol, df) acc t) as (r & evs & Hrun & Hlog).
  rewrite Hrun. destruct r as [e|acc1]; [by exists e, evs|].
  apply elem_of_cons in Hin as [[= -> ->]|Hin].
  - apply (train_symbol_single_row w sk symbol _ acc t) in Hone as [e He]. congruence.
  - destruct (IH acc1 (t ++ evs)) as (e & evs' & -> & Hlog'); [by exists s, df'|].
    exists e, (evs ++ evs'). rewrite app_assoc. split; [done|]. by apply Forall_app.
Qed.

End run_errors.

(** ** The outcome of the trainer *)

Section trainer_outcome.
Import Float yfinance Py TradingStrategy MLModel.
Variable w : world.
Variable sk : sklearn.library.

(** A prepared set that does not hold exactly one row is skipped or split
    and fitted: the loop body returns. *)
Lemma train_symbol_returns_unless_single_row (symbol : string) (df : list SignalRow)
    (acc : PyDict.dict (sklearn.model sk) * PyDict.dict Q) (t : trace) :
  length (prepare_data df).2 ≠ 1 →
  ∃ acc' evs, train_symbol w sk (symbol, df) acc t = (inr acc', t ++ evs).
Proof.
  intros Hne.
  destruct (train_symbol_trace w sk (symbol, df) acc t) as ([e|acc'] & evs & Hrun & _);
    [|by exists acc', evs].
  exfalso. revert Hrun. unfold train_symbol.
  pose proof (prepare_data_lengths df) as Hlen.
  destruct acc as [models accuracies], (prepare_data df) as [X y]. simpl in Hlen, Hne |- *.
  destruct X as [|x X], y as [|y0 y]; try done; simpl.
  unfold train_test_split. cbn [length].
  pose proof (n_test_lt (S (length X)) ltac:(simpl in Hlen, Hne; lia)) as Hlt.
  destruct (S (length X) - n_test_of (S (length X)) =? 0) eqn:Hz.
  { apply Nat.eqb_eq in Hz. lia. }
  by run_M.
Qed.

Lemma train_models_returns (signals : PyDict.dict (list SignalRow)) : ∀ acc t,
  (∀ s df, (s, df) ∈ signals → length (prepare_data df).2 ≠ 1) →
  ∃ acc' evs, for_each signals (train_symbol w sk) acc t = (inr acc', t ++ evs).
Proof.
  induction signals as [|[symbol df] signals IH]; intros acc t Hall; cbn [for_each].
  - exists acc, []. by rewrite app_nil_r.
  - unfold bind at 1.
    destruct (train_symbol_returns_unless_single_row symbol df acc t) as (acc1 & evs1 & ->).
    { apply (Hall symbol). left. }
    destruct (IH acc1 (t ++ evs1)) as (acc' & evs & ->).
    { intros s df' Hin. apply (Hall s). by right. }
    exists acc', (evs1 ++ evs). by rewrite app_assoc.
Qed.

(** C4, amended.  The trainer looks at the size of the prepared set only,
    never at the number of label classes.  Either some symbol's prepared
    set has exactly one row, and then [train_models] raises (the error of
    [train_test_split], which nothing catches) and returns neither models
    nor accuracies; or no symbol's has, and then [train_models] returns:
    a symbol whose prepared set is empty has no model and no accuracy (it
    was skipped), a symbol whose prepared set is not empty has both,
    whatever the number of classes in it, and every recorded accuracy lies
    in [0,1]. *)
Theorem trainer_skips_empty_sets_and_raises_on_one_row
    (signals : PyDict.dict (list SignalRow)) (t : trace) :
  NoDup (PyDict.keys signals) →
  ((∃ s df, (s, df) ∈ signals ∧ length (prepare_data df).2 = 1)
   ∧ ∃ e evs, train_models w sk signals t = (inl e, t ++ evs))
  ∨ ((∀ s df, (s, df) ∈ signals → length (prepare_data df).2 ≠ 1)
     ∧ ∃ models accuracies evs,
         train_models w sk signals t = (inr (models, accuracies), t ++ evs)
         ∧ (∀ s df, PyDict.get s signals = Some df → (prepare_data df).2 = [] →
                    PyDict.get s models = None ∧ PyDict.get s accuracies = None)
         ∧ (∀ s df, PyDict.get s signals = Some df → (prepare_data df).2 ≠ [] →
                    is_Some (PyDict.get s models) ∧ is_Some (PyDict.get s accuracies))
         ∧ (∀ s a, PyDict.get s accuracies = Some a → (0 <= a <= 1)%Q)).
Proof.
  intros Hnd.
  destruct (decide (Exists (λ entry : string * list SignalRow,
                              length (prepare_data entry.2).2 = 1) signals)) as [Hex|Hall].
  - left. apply Exists_exists in Hex as ([s df] & Hin & Hone). simpl in Hone.
    split; [by exists s, df|].
    destruct (train_models_raises w sk signals ([], []) t) as (e & evs & Hrun & _);
      [by exists s, df|].
    by exists e, evs.
  - right. apply not_Exists_Forall in Hall; [|intros ?; apply _].
    assert (∀ s df, (s, df) ∈ signals → length (prepare_data df).2 ≠ 1) as Hall'.
    { intros s df Hin. by apply (proj1 (Forall_forall _ _) Hall (s, df)). }
    split; [done|].
    destruct (train_models_returns signals ([], []) t Hall') as ([models accuracies] & evs & Hrun).
    exists models, accuracies, evs. split; [done|].
    by apply (train_models_records w sk signals t (t ++ evs)).
Qed.

End trainer_outcome.

Section trainer_outcome_example.
Import Float yfinance Py TradingStrategy MLModel.

Lemma trainer_skips_empty_sets_and_raises_on_one_row_witness :
  let signals := [("FALL"%string, generate_signals_df (Examples.falling 55));
                  ("SHORT"%string, generate_signals_df (Examples.falling 30))] in
  ((∃ s df, (s, df) ∈ signals ∧ length (prepare_data df).2 = 1)
   ∧ ∃ e evs, train_models Examples.quiet_world Examples.constant_classifier signals []
              = (inl e, [] ++ evs))
  ∨ ((∀ s df, (s, df) ∈ signals → length (prepare_data df).2 ≠ 1)
     ∧ ∃ models accuracies evs,
         train_models Examples.quiet_world Examples.constant_classifier signals []
         = (inr (models, accuracies), [] ++ evs)
         ∧ (∀ s df, PyDict.get s signals = Some df → (prepare_data df).2 = [] →
                    PyDict.get s models = None ∧ PyDict.get s accuracies = None)
         ∧ (∀ s df, PyDict.get s signals = Some df → (prepare_data df).2 ≠ [] →
                    is_Some (PyDict.get s models) ∧ is_Some (PyDict.get s accuracies))
         ∧ (∀ s a, PyDict.get s accuracies = Some a → (0 <= a <= 1)%Q)).
Proof.
  apply (trainer_skips_empty_sets_and_raises_on_one_row
           Examples.quiet_world Examples.constant_classifier).
  apply (bool_decide_unpack _). by vm_compute.
Defined.

End trainer_outcome_example.

Section run_errors2.
Import yfinance Py TradingStrategy MLModel TradingSystem.



End run_errors2.

(** ** More on reporting *)

Section telegram.
Import Py TelegramNotifier.

(** X16.  A notifier built from a token and a chat id posts one message,
    to the URL built from the token, exactly when both are set and not
    empty, and logs success exactly when the answer has status 200; in
    every other case it only logs the warning.  [send_alert] always
    returns. *)
Theorem alert_is_posted_iff_token_and_chat_are_set (w : world)
    (token chat : option string) (message : string) (t : trace) :
  ∃ evs, send_alert w (init token chat) message t = (inr (), t ++ evs)
    ∧ match token, chat with
      | Some tk, Some c =>
          if bool_decide (tk ≠ "") && bool_decide (c ≠ "") then
            ∃ r l, evs = [EvPost ("https://api.telegram.org/bot" +:+ tk +:+ "/sendMessage")
                                 c message r; l]
                   ∧ (l = EvLog INFO "Telegram alert sent successfully"
                      ↔ ∃ body, r = inr (200%Z, body))
          else evs = [EvLog WARNING "Telegram token or chat id not provided - skipping alert."]
      | _, _ => evs = [EvLog WARNING "Telegram token or chat id not provided - skipping alert."]
      end.
Proof.
  unfold send_alert, init.
  destruct token as [tk|]; [|by eexists].
  destruct chat as [c|]; [|by simpl; rewrite orb_true_r; eexists].
  unfold truthy at 3. cbn [default id].
  destruct (decide (tk = "")) as [->|Htk].
  { by eexists. }
  rewrite (bool_decide_true (tk ≠ "")) by done.
  assert (truthy (Some tk) = true) as ->.
  { unfold truthy. by rewrite bool_decide_false. }
  cbn [negb orb andb default id base_url chat_id].
  assert (truthy (Some ("https://api.telegram.org/bot" +:+ tk +:+ "/sendMessage")) = true) as ->.
  { done. }
  cbn [negb orb andb default id base_url chat_id].
  destruct (decide (c = "")) as [->|Hc].
  { by eexists. }
  rewrite (bool_decide_true (c ≠ "")) by done.
  rewrite (bool_decide_false (c = "")) by done.
  cbn [negb orb].
  run_M.
  destruct (requests_post w t _ c message) as [e|[status body]] eqn:Hpost; cbn [fst snd].
  - eexists. split; [by rewrite <- app_assoc|]. eexists _, _. split; [done|].
    split; [done|]. by intros [body [=]].
  - case_decide as Hstatus; subst.
    + eexists. split; [by rewrite <- app_assoc|]. eexists _, _. split; [done|].
      split; [by exists body|done].
    + eexists. split; [by rewrite <- app_assoc|]. eexists _, _. split; [done|].
      split; [done|]. intros [body' [= ? ?]]. done.
Qed.

End telegram.

Section sheets_client.
Import Py GoogleSheetsLogger.

(** X19.  Building the Sheets logger never raises, and the client is there
    only after a full connection: when it is, the path was not empty, the
    file existed, and reading the credentials, authorising and opening
    "AlgoTradingSystem" all succeeded, in that order and with nothing
    else done; an empty path, a missing file or an error of any of the
    three steps leaves the logger without a client. *)
Theorem sheets_client_only_after_a_full_connection (w : world)
    (credentials_file : string) (t : trace) :
  ∃ sheet evs, init w credentials_file t = (inr sheet, t ++ evs)
    ∧ (sheet = None
       ∨ credentials_file ≠ ""
         ∧ evs = [EvPathExists credentials_file true;
                  EvCredentials credentials_file (inr ());
                  EvAuthorize (inr ());
                  EvOpen "AlgoTradingSystem" (inr ())])
    ∧ (credentials_file = ""
       ∨ EvPathExists credentials_file false ∈ evs
       ∨ (∃ e, EvCredentials credentials_file (inl e) ∈ evs
               ∨ EvAuthorize (inl e) ∈ evs
               ∨ EvOpen "AlgoTradingSystem" (inl e) ∈ evs) →
       sheet = None).
Proof. apply sheets_init_spec. Qed.

End sheets_client.

Section sheets.
Import Py TradingStrategy GoogleSheetsLogger Obs.
Variable w : world.

Lemma trade_rows_loop_body (body : string * list SignalRow → list (list value) → M (list (list value)))
    (signals : PyDict.dict (list SignalRow)) (acc : list (list value)) t :
  (∀ symbol df acc, body (symbol, df) acc t =
     match last df with
     | Some r => (inr (acc ++ [[VStr (now w t); VStr symbol; VInt (Signal r);
                                VFloat (yfinance.Close (bar (indicators r)));
                                float_or_0 (RSI (indicators r));
                                float_or_0 (MA_20 (indicators r));
                                float_or_0 (MA_50 (indicators r))]]), t)
     | None => (inl (Exception "single positional indexer is out-of-bounds"), t)
     end) →
  (∃ rows, for_each signals body acc t = (inr (acc ++ rows), t)
     ∧ Forall2 is_trade_row signals rows)
  ∨ (∃ e, for_each signals body acc t = (inl e, t)
     ∧ Exists (λ entry, entry.2 = []) signals).
Proof.
  intros Hbody. revert acc.
  induction signals as [|[symbol df] signals IH]; intros acc; cbn [for_each].
  - left. exists []. split; [by rewrite app_nil_r|constructor].
  - unfold bind. rewrite !Hbody.
    destruct (last df) as [r|] eqn:Hlast; cbv beta iota.
    + destruct (IH (acc ++ [[VStr (now w t); VStr symbol; VInt (Signal r);
                             VFloat (yfinance.Close (bar (indicators r)));
                             float_or_0 (RSI (indicators r));
                             float_or_0 (MA_20 (indicators r));
                             float_or_0 (MA_50 (indicators r))]]))
        as [(rows & Hrun & Hrows)|(e & Hrun & Hex)].
      * left. eexists (_ :: rows). split.
        { rewrite Hrun. by rewrite <- app_assoc. }
        constructor; [|done]. by exists (now w t), r.
      * right. exists e. split; [by rewrite Hrun|]. by apply Exists_cons_tl.
    + right. eexists. split; [done|].
      apply Exists_cons_hd. by apply last_None in Hlast.
Qed.

Lemma trade_rows_loop (signals : PyDict.dict (list SignalRow)) (acc : list (list value)) t :
  (∃ rows, for_each signals
      (λ '(symbol, df) trade_data,
         last_signal ← iloc_last df;
         row ← trade_row w symbol last_signal;
         mret (trade_data ++ [row])) acc t = (inr (acc ++ rows), t)
     ∧ Forall2 is_trade_row signals rows)
  ∨ (∃ e, for_each signals
      (λ '(symbol, df) trade_data,
         last_signal ← iloc_last df;
         row ← trade_row w symbol last_signal;
         mret (trade_data ++ [row])) acc t = (inl e, t)
     ∧ Exists (λ entry, entry.2 = []) signals).
Proof.
  apply trade_rows_loop_body. intros symbol df acc'.
  unfold iloc_last, trade_row. run_M. by destruct (last df).
Qed.

(** X13.  [log_trades] always returns and calls [append_rows] at most once,
    on "Trade_Log", with one row of seven cells per symbol, in the order
    of the mapping, built from the last row of the symbol's frame; it
    never calls [append_row].  With an opened spreadsheet, a worksheet
    lookup that succeeds and no empty frame, the call is made. *)
Theorem trade_log_gets_every_row_or_nothing (sheet : sheet)
    (signals : PyDict.dict (list SignalRow)) (t : trace) :
  ∃ evs, log_trades w sheet signals t = (inr (), t ++ evs)
    ∧ (append_rows_calls evs = []
       ∨ ∃ rows, append_rows_calls evs = [("Trade_Log", rows)]
                 ∧ Forall2 is_trade_row signals rows
                 ∧ Forall (λ row, length row = 7) rows)
    ∧ append_row_calls evs = []
    ∧ (sheet = Some () → gs_worksheet w t "Trade_Log" = inr () →
       Forall (λ entry, entry.2 ≠ []) signals → append_rows_calls evs ≠ []).
Proof.
  unfold log_trades. case_bool_decide as Hsheet.
  { eexists [_]. split; [done|]. split; [by left|]. split; [done|]. by intros ->. }
  unfold try_except, mbind, M_bind, bind at 1, perform at 1.
  destruct (gs_worksheet w t "Trade_Log") as [e|[]] eqn:Hws.
  { eexists [_; _]. split; [unfold log, emit; by rewrite <- app_assoc|].
    split; [by left|]. by split. }
  unfold bind at 1.
  destruct (trade_rows_loop signals [] (t ++ [EvWorksheet "Trade_Log" (inr ())]))
    as [(rows & Hrun & Hrows)|(e & Hrun & Hex)];
    unfold mbind, M_bind in Hrun; rewrite Hrun.
  - cbn [app]. unfold bind, perform, log, emit.
    assert (Forall (λ row : list value, length row = 7) rows) as Hlen.
    { clear -Hrows. induction Hrows as [|? ? ? ? (? & ? & _ & ->)]; by constructor. }
    destruct (gs_append_rows w _ "Trade_Log" rows) as [e|[]].
    + eexists [_; _; _]. split; [by rewrite <- !app_assoc|].
      split; [right; by exists rows|]. by split.
    + eexists [_; _; _]. split; [by rewrite <- !app_assoc|].
      split; [right; by exists rows|]. by split.
  - eexists [_; _]. split; [unfold log, emit; by rewrite <- !app_assoc|].
    split; [by left|]. split; [done|].
    intros _ _ Hne. exfalso. apply Exists_exists in Hex as (entry & Hin & Hnil).
    by eapply Forall_forall in Hne.
Qed.

End sheets.

Section portfolio.
Import Py TradingStrategy GoogleSheetsLogger Obs.
Variable w : world.

(** X14.  Reading the previous portfolio value never fails and asks for
    the sheet's values once: the value is 0 unless the sheet has more than
    one row and the seventh cell of its last row parses as a number, and
    then it is that number. *)
Theorem previous_value_is_zero_unless_last_row_parses (t : trace) :
  ∃ x q, read_previous_value w t = (inr q, t ++ [EvGetAllValues "Portfolio_Summary" x])
    ∧ (q = 0%Q
       ∨ ∃ all_values row s, x = inr all_values ∧ 1 < length all_values
           ∧ last all_values = Some row ∧ row !! 6 = Some s
           ∧ float_of_string w s = Some q).
Proof.
  unfold read_previous_value. run_M.
  destruct (gs_get_all_values w t "Portfolio_Summary") as [e|vs] eqn:Hget.
  { eexists _, _. split; [done|]. by left. }
  destruct (1 <? length vs) eqn:Hlen; [|eexists _, _; split; [done|by left]].
  apply Nat.ltb_lt in Hlen.
  destruct (last vs) as [row|] eqn:Hlast; cbn [mbind option_bind];
    [|eexists _, _; split; [done|by left]].
  destruct (row !! 6) as [s|] eqn:Hcell; [|eexists _, _; split; [done|by left]].
  destruct (float_of_string w s) as [q|] eqn:Hparse; [|eexists _, _; split; [done|by left]].
  eexists _, q. split; [done|]. right. by exists vs, row, s.
Qed.

Lemma read_previous_value_returns (t : trace) :
  ∃ x q, read_previous_value w t = (inr q, t ++ [EvGetAllValues "Portfolio_Summary" x]).
Proof.
  unfold read_previous_value. run_M.
  destruct (gs_get_all_values w t "Portfolio_Summary") as [e|vs]; [by eexists _, _|].
  destruct (1 <? length vs); [|by eexists _, _].
  destruct (last vs) as [row|]; cbn [mbind option_bind]; [|by eexists _, _].
  destruct (row !! 6) as [s|]; [|by eexists _, _].
  destruct (float_of_string w s); by eexists _, _.
Qed.

Lemma count_loop_body (z : Z) (body : list SignalRow → Z → M Z)
    (signals : PyDict.dict (list SignalRow)) (n : Z) t :
  (∀ df n, body df n t =
     match last df with
     | Some r => (inr (if decide (Signal r = z) then (n + 1)%Z else n), t)
     | None => (inl (Exception "single positional indexer is out-of-bounds"), t)
     end) →
  for_each (PyDict.values signals) body n t
    = (inr (n + Z.of_nat (last_signal_count z signals))%Z, t)
  ∨ ∃ e, for_each (PyDict.values signals) body n t = (inl e, t).
Proof.
  intros Hbody. revert n. unfold last_signal_count, PyDict.values.
  induction signals as [|[symbol df] signals IH]; intros n; cbn [for_each fmap list_fmap].
  - left. unfold ret. simpl. by rewrite Z.add_0_r.
  - unfold bind. rewrite !Hbody. rewrite filter_cons. cbn [snd].
    destruct (last df) as [r|] eqn:Hlast; cbv beta iota; [|right; by eexists].
    cbn [fmap option_fmap option_map].
    destruct (IH (if decide (Signal r = z) then (n + 1)%Z else n)) as [Hrun|[e Hrun]];
      rewrite Hrun; [left|right; by eexists].
    do 2 f_equal. repeat case_decide; simplify_eq/=; try done; lia.
Qed.

Lemma count_last_signal_spec (z : Z) (signals : PyDict.dict (list SignalRow)) t :
  count_last_signal z signals t = (inr (Z.of_nat (last_signal_count z signals)), t)
  ∨ ∃ e, count_last_signal z signals t = (inl e, t).
Proof.
  unfold count_last_signal.
  destruct (count_loop_body z
    (λ df n, r ← iloc_last df; mret (if decide (Signal r = z) then (n + 1)%Z else n))
    signals 0%Z t) as [Hrun|Hrun]; [|by left|by right].
  intros df n. unfold iloc_last. run_M. by destruct (last df).
Qed.

Lemma value_loop (dfs : list (list SignalRow)) (total : Q) t :
  ∃ x, for_each dfs
         (λ df total, r ← iloc_last df; mret (total + MLModel.close_of r)%Q) total t
       = (x, t).
Proof.
  revert total. induction dfs as [|df dfs IH]; intros total; cbn [for_each].
  - by eexists.
  - unfold bind at 1. unfold iloc_last at 1. run_M.
    destruct (last df) as [r|]; [apply IH|by eexists].
Qed.

Lemma last_signal_counts_le (signals : PyDict.dict (list SignalRow)) :
  last_signal_count 1 signals + last_signal_count (-1) signals ≤ length signals.
Proof.
  unfold last_signal_count. induction signals as [|[symbol df] signals IH]; [done|].
  rewrite !filter_cons. cbn [snd length].
  repeat case_decide; simplify_eq/=; try lia.
Qed.

(** X15.  [log_portfolio] always returns and writes with [append_row] on
    "Portfolio_Summary" only: nothing, the header row alone (when writing
    it raised), the summary row, or the header row followed by the summary
    row.  The header row is written exactly when the second reading of the
    sheet returned no rows.  In the summary row the buy, sell and hold
    counts add up to the number of symbols, and the hold count is not
    negative. *)
Theorem portfolio_header_only_on_an_empty_sheet (sheet : sheet)
    (signals : PyDict.dict (list SignalRow)) (accuracies : PyDict.dict Q) (t : trace) :
  ∃ evs, log_portfolio w sheet signals accuracies t = (inr (), t ++ evs)
    ∧ append_rows_calls evs = []
    ∧ (append_row_calls evs = []
       ∨ append_row_calls evs = [("Portfolio_Summary", summary_headers)]
       ∨ ∃ summary, is_summary_row signals summary
           ∧ (append_row_calls evs = [("Portfolio_Summary", summary)]
              ∨ append_row_calls evs = [("Portfolio_Summary", summary_headers);
                                        ("Portfolio_Summary", summary)]))
    ∧ (("Portfolio_Summary", summary_headers) ∈ append_row_calls evs
       ↔ ∃ x, get_all_values_answers evs = [x; inr []]).
Proof.
  unfold log_portfolio. case_bool_decide as Hsheet.
  { eexists [_]. split; [done|]. split; [done|]. split; [by left|].
    split; [by intros ?%elem_of_nil|by intros [? [=]]]. }
  unfold try_except, mbind, M_bind, bind at 1, perform at 1.
  destruct (gs_worksheet w t "Portfolio_Summary") as [e|[]] eqn:Hws.
  { eexists [_; _]. split; [unfold log, emit; by rewrite <- app_assoc|].
    split; [done|]. split; [by left|].
    split; [by intros ?%elem_of_nil|by intros [? [=]]]. }
  unfold bind at 1.
  destruct (read_previous_value_returns
              (t ++ [EvWorksheet "Portfolio_Summary" (inr ())])) as (x & q & ->).
  set (t1 := (t ++ [EvWorksheet "Portfolio_Summary" (inr ())])
               ++ [EvGetAllValues "Portfolio_Summary" x]).
  assert (∀ e, ∃ evs,
    log ERROR ("Error logging portfolio summary: " +:+ str e) t1 = (inr (), t ++ evs)
    ∧ append_rows_calls evs = [] ∧ append_row_calls evs = []
    ∧ get_all_values_answers evs = [x]) as Hfail.
  { intros e. eexists [_; _; _]. split.
    - unfold log, emit, t1. by rewrite <- !app_assoc.
    - done. }
  assert (∀ e, ∃ evs,
    log ERROR ("Error logging portfolio summary: " +:+ str e) t1 = (inr (), t ++ evs)
    ∧ append_rows_calls evs = []
    ∧ (append_row_calls evs = []
       ∨ append_row_calls evs = [("Portfolio_Summary", summary_headers)]
       ∨ ∃ summary, is_summary_row signals summary
           ∧ (append_row_calls evs = [("Portfolio_Summary", summary)]
              ∨ append_row_calls evs = [("Portfolio_Summary", summary_headers);
                                        ("Portfolio_Summary", summary)]))
    ∧ (("Portfolio_Summary", summary_headers) ∈ append_row_calls evs
       ↔ ∃ x, get_all_values_answers evs = [x; inr []])) as Hfail'.
  { intros e. destruct (Hfail e) as (evs & Hrun & Hrows & Hrow & Hget).
    exists evs. split; [done|]. split; [done|]. split; [by left|].
    rewrite Hrow, Hget. split; [by intros ?%elem_of_nil|by intros [? [=]]]. }
  clear Hfail.
  unfold bind at 1.
  destruct (count_last_signal_spec 1 signals t1) as [->|[e ->]]; [|apply Hfail'].
  unfold bind at 1.
  destruct (count_last_signal_spec (-1) signals t1) as [->|[e ->]]; [|apply Hfail'].
  unfold bind at 1.
  destruct (value_loop (PyDict.values signals) 0%Q t1) as [[e|value] Hvalue].
  { unfold mbind, M_bind in Hvalue. rewrite Hvalue. apply Hfail'. }
  unfold mbind, M_bind in Hvalue. rewrite Hvalue. clear Hfail' Hvalue.
  unfold bind at 1, observe.
  set (summary := [_; _; _; _; _; _; _; _; _]).
  assert (is_summary_row signals summary) as Hsummary.
  { eexists _, _, _, _, _, _. split; [done|].
    pose proof (last_signal_counts_le signals). lia. }
  assert (summary ≠ summary_headers) as Hne by done.
  clearbody summary. unfold t1. clear t1. run_M.
  destruct (gs_get_all_values w _ "Portfolio_Summary") as [e|vs].
  { eexists [_; _; _; _]. split; [by rewrite <- !app_assoc|]. split; [done|].
    split; [by left|]. split; [by intros ?%elem_of_nil|by intros [? [=]]]. }
  case_bool_decide as Hvs; [subst vs|].
  - destruct (gs_append_row w _ "Portfolio_Summary" summary_headers) as [e|[]].
    { eexists [_; _; _; _; _]. split; [by rewrite <- !app_assoc|]. split; [done|].
      split; [right; by left|]. split; [by eexists|]. intros _. apply list_elem_of_here. }
    destruct (gs_append_row w _ "Portfolio_Summary" summary) as [e|[]].
    + eexists [_; _; _; _; _; _]. split; [by rewrite <- !app_assoc|]. split; [done|].
      split; [right; right; exists summary; split; [done|by right]|].
      split; [by eexists|]. intros _. apply list_elem_of_here.
    + eexists [_; _; _; _; _; _]. split; [by rewrite <- !app_assoc|]. split; [done|].
      split; [right; right; exists summary; split; [done|by right]|].
      split; [by eexists|]. intros _. apply list_elem_of_here.
  - assert (∀ r l, ("Portfolio_Summary", summary_headers)
                   ∈ append_row_calls [EvWorksheet "Portfolio_Summary" (inr ());
                                       EvGetAllValues "Portfolio_Summary" x;
                                       EvGetAllValues "Portfolio_Summary" (inr vs);
                                       EvAppendRow "Portfolio_Summary" summary r;
                                       EvLog l.1 l.2]
                   ↔ ∃ x0, get_all_values_answers
                             [EvWorksheet "Portfolio_Summary" (inr ());
                              EvGetAllValues "Portfolio_Summary" x;
                              EvGetAllValues "Portfolio_Summary" (inr vs);
                              EvAppendRow "Portfolio_Summary" summary r;
                              EvLog l.1 l.2] = [x0; inr []]) as Hiff.
    { intros r l. simpl. split.
      - intros [[=]|?%elem_of_nil]%elem_of_cons; done.
      - intros [? [= ? ?]]. done. }
    destruct (gs_append_row w _ "Portfolio_Summary" summary) as [e|[]].
    + eexists [_; _; _; _; _]. split; [by rewrite <- !app_assoc|]. split; [done|].
      split; [right; right; exists summary; split; [done|by left]|].
      apply (Hiff _ (ERROR, _)).
    + eexists [_; _; _; _; _]. split; [by rewrite <- !app_assoc|]. split; [done|].
      split; [right; right; exists summary; split; [done|by left]|].
      apply (Hiff _ (INFO, _)).
Qed.

End portfolio.
